(** * HabitBloom: the habit-entry engine of [src/App.jsx]

    A shallow embedding of the dashboard's entry store, its streak and
    completion analytics, the day axis builder and the drag-to-edit
    controller, together with the properties stated about them.

    Conventions.
    - A row returned by the storage service (a habit or a habit entry) is a
      JavaScript object: a finite map from property names to values.
    - The component state [entries] / [habits] is an array of rows: a list,
      since [find] and [findIndex] pick the first match and order matters.
    - Counters that only ever take small non-negative integer values
      ([count], [max], [current]) are naturals. *)

From Stdlib Require Import ZArith Floats.
From stdpp Require Import gmap strings list sorting.

(** ** JavaScript values and objects *)

Module JS.

Inductive Value :=
| Undefined
| Null
| Bool (b : bool)
| Num (z : Z)      (* integer-valued numbers: numeric ids *)
| Str (s : string).

#[global] Instance Value_eq_dec : EqDecision Value.
Proof. solve_decision. Defined.

(** An object literal / a row of a table. *)
Abbreviation Row := (gmap string Value).

(** [o.k]: a missing property reads as [undefined]. *)
Definition get (o : Row) (k : string) : Value := default Undefined (o !! k).

(** [!!v] *)
Definition truthy (v : Value) : bool :=
  match v with
  | Undefined | Null => false
  | Bool b => b
  | Num z => negb (z =? 0)%Z
  | Str s => negb (String.eqb s "")
  end.

(** [a === b] on the values above. *)
Definition strict_eq (a b : Value) : bool := bool_decide (a = b).

(** [{...a, ...b}]: the properties of [b] win. *)
Definition spread (a b : Row) : Row := b ∪ a.

(** [arr.findIndex(p)], with [None] for [-1]. *)
Fixpoint findIndex {A} (p : A → bool) (arr : list A) : option nat :=
  match arr with
  | [] => None
  | x :: rest => if p x then Some 0 else S <$> findIndex p rest
  end.

(** [arr.sort(cmp)].  The language requires the sort to be stable; for a
    comparator that is a consistent ordering the outcome is then unique,
    and it is computed here by insertion: an element goes in front of the
    first later element that does not have to precede it. *)
Fixpoint sort_insert {A} (cmp : A → A → Z) (x : A) (sorted : list A) : list A :=
  match sorted with
  | [] => [x]
  | y :: rest =>
      if (cmp x y <=? 0)%Z then x :: y :: rest
      else y :: sort_insert cmp x rest
  end.

Definition sort {A} (cmp : A → A → Z) (arr : list A) : list A :=
  foldr (sort_insert cmp) [] arr.

End JS.

Import JS.

(** ** Numbers

    The quotient in the completion rate is a genuine double, so the
    arithmetic of that computation is IEEE binary64. *)

Module Number.

#[local] Open Scope float_scope.

(** An array length (below 2^32) as a Number. *)
Definition of_nat (n : nat) : float := of_uint63 (Uint63.of_Z (Z.of_nat n)).



End Number.

(** ** The day axis records *)

Record Day := {
  date : string;                  (* YYYY-MM-DD *)
  label : string;
  weekdayRow : Z;                 (* 0..6, Monday first *)
  weekdayLabel : option string;   (* [None] is [undefined] *)
  dayOfMonth : Z;
  monthIndex : Z;
  monthShort : string
}.

(** ** Dates

    A [Date] object is its time value: milliseconds since the epoch, UTC.
    The host supplies the local time zone and the locale's renderings.
    The zone is a fixed offset from UTC, which is exact for a zone without
    daylight-saving transitions (UTC itself, Asia/Kolkata, ...). *)

Module JSDate.

#[local] Open Scope Z_scope.

Record Host := {
  LocalTZA : Z;                            (* local minus UTC, in ms *)
  (* [toLocaleDateString(undefined, {day: "numeric", month: "short"})]
     and [toLocaleDateString(undefined, {month: "short"})], from the month
     index and day of month in local time *)
  locale_day_month : Z → Z → string;
  locale_month : Z → string
}.

Definition msPerDay : Z := 86400000.

(** The day number of a time value ([Day(t)] in the language definition). *)
Definition EpochDay (t : Z) : Z := t / msPerDay.
Definition TimeWithinDay (t : Z) : Z := t mod msPerDay.

(** Day number of the proleptic Gregorian date [y]-[m]-[d], [m] in 1..12. *)
Definition days_from_civil (y m d : Z) : Z :=
  let y := if m <=? 2 then y - 1 else y in
  let era := y / 400 in
  let yoe := y - era * 400 in
  let doy := (153 * (if 2 <? m then m - 3 else m + 9) + 2) / 5 + d - 1 in
  let doe := yoe * 365 + yoe / 4 - yoe / 100 + doy in
  era * 146097 + doe - 719468.

(** The date (year, month 1..12, day of month) of a day number. *)
Definition civil_from_days (z : Z) : Z * Z * Z :=
  let z := z + 719468 in
  let era := z / 146097 in
  let doe := z - era * 146097 in
  let yoe := (doe - doe / 1460 + doe / 36524 - doe / 146096) / 365 in
  let y := yoe + era * 400 in
  let doy := doe - (365 * yoe + yoe / 4 - yoe / 100) in
  let mp := (5 * doy + 2) / 153 in
  let d := doy - (153 * mp + 2) / 5 + 1 in
  let m := if mp <? 10 then mp + 3 else mp - 9 in
  (if m <=? 2 then y + 1 else y, m, d).

Definition YearFromTime (t : Z) : Z := (civil_from_days (EpochDay t)).1.1.
Definition MonthFromTime (t : Z) : Z := (civil_from_days (EpochDay t)).1.2 - 1.
Definition DateFromTime (t : Z) : Z := (civil_from_days (EpochDay t)).2.
Definition WeekDay (t : Z) : Z := (EpochDay t + 4) mod 7.

Definition MakeDay (year month dt : Z) : Z :=
  days_from_civil (year + month / 12) (month mod 12 + 1) 1 + dt - 1.
Definition MakeDate (day time : Z) : Z := day * msPerDay + time.

Section Methods.

Variable host : Host.

Definition LocalTime (t : Z) : Z := t + LocalTZA host.
Definition UTC (t : Z) : Z := t - LocalTZA host.

(** [new Date(year, month, day)]: local midnight. *)
Definition Date_of_fields (year month day : Z) : Z :=
  let year := if (0 <=? year) && (year <=? 99) then 1900 + year else year in
  UTC (MakeDate (MakeDay year month day) 0).

Definition getFullYear (t : Z) : Z := YearFromTime (LocalTime t).
Definition getMonth (t : Z) : Z := MonthFromTime (LocalTime t).
Definition getDate (t : Z) : Z := DateFromTime (LocalTime t).
Definition getDay (t : Z) : Z := WeekDay (LocalTime t).

(** [d.setDate(dt)], returning the new time value. *)
Definition setDate (t dt : Z) : Z :=
  let lt := LocalTime t in
  UTC (MakeDate (MakeDay (YearFromTime lt) (MonthFromTime lt) dt)
                (TimeWithinDay lt)).

End Methods.

Definition digit (n : Z) : string :=
  String (Ascii.ascii_of_nat (48 + Z.to_nat n)) EmptyString.

(** [n] in decimal, on exactly [width] digits. *)
Fixpoint pad (width : nat) (n : Z) : string :=
  match width with
  | O => ""
  | S w => pad w (n / 10) +:+ digit (n mod 10)
  end.

(** [toISOString()], always in UTC; years outside 0..9999 take a sign and
    six digits. *)
Definition toISOString (t : Z) : string :=
  let y := YearFromTime t in
  let tod := TimeWithinDay t in
  (if (0 <=? y) && (y <=? 9999) then pad 4 y
   else (if y <? 0 then "-" else "+") +:+ pad 6 (Z.abs y))
  +:+ "-" +:+ pad 2 (MonthFromTime t + 1)
  +:+ "-" +:+ pad 2 (DateFromTime t)
  +:+ "T" +:+ pad 2 (tod / 3600000)
  +:+ ":" +:+ pad 2 (tod / 60000 mod 60)
  +:+ ":" +:+ pad 2 (tod / 1000 mod 60)
  +:+ "." +:+ pad 3 (tod mod 1000) +:+ "Z".

End JSDate.

(** ** The day axis *)

Section Axis.

Import JSDate.

Variable host : Host.

Definition formatDate (t : Z) : string := String.substring 0 10 (toISOString t).

Definition weekdayLabels : list string :=
  ["Mon"; "Tue"; "Wed"; "Thu"; "Fri"; "Sat"; "Sun"].

(** The object pushed for the date [copy]. *)
Definition day_of_date (copy : Z) : Day :=
  let jsDay := getDay host copy in
  let weekdayRow := ((jsDay + 6) mod 7)%Z in
  {| date := formatDate copy;
     label := locale_day_month host (getMonth host copy) (getDate host copy);
     weekdayRow := weekdayRow;
     weekdayLabel := weekdayLabels !! Z.to_nat weekdayRow;
     dayOfMonth := getDate host copy;
     monthIndex := getMonth host copy;
     monthShort := locale_month host (getMonth host copy) |}.

(** The [for] loop, with [d] the loop variable and [days] the array built
    so far; [None] when the iteration budget runs out before [d] passes
    [today]. *)
Fixpoint getDaysFromStartOfYear_loop (today : Z) (budget : nat) (d : Z)
    (days : list Day) : option (list Day) :=
  match budget with
  | O => None
  | S budget =>
      if (d <=? today)%Z
      then getDaysFromStartOfYear_loop today budget
             (setDate host d (getDate host d + 1)) (days ++ [day_of_date d])
      else Some days
  end.

(** [now] is the value of [new Date()]. *)
Definition getDaysFromStartOfYear (now : Z) (budget : nat) : option (list Day) :=
  let today := now in
  let start := Date_of_fields host (getFullYear host today) 0 1 in
  getDaysFromStartOfYear_loop today budget start [].

End Axis.

(** ** Entry store reads and streaks *)

Section Analytics.

(** The component state the helpers close over. *)
Variable days : list Day.
Variable entries : list Row.

Definition entry_matches (habitId : Value) (d : string) (e : Row) : bool :=
  strict_eq (get e "habit_id") habitId && strict_eq (get e "date") (Str d).

Definition getEntry (habitId : Value) (d : string) : option Row :=
  List.find (entry_matches habitId d) entries.

Definition getHabitDayRatio (habit : Row) (d : string) : nat :=
  match getEntry (get habit "id") d with
  | None => 0
  | Some entry => if truthy (get entry "value") then 1 else 0
  end.

(** [ratio > 0] for a day of the axis. *)
Definition done (habit : Row) (day : Day) : bool :=
  0 <? getHabitDayRatio habit (date day).

(** The backward loop of [getHabitStreak]; [n] is [i + 1], so that [n = 0]
    is the exit [i < 0].  The index is always inside the array. *)
Fixpoint getHabitStreak_loop (habit : Row) (n count : nat) : nat :=
  match n with
  | 0 => count
  | S i =>
      match days !! i with
      | Some day =>
          if 0 <? getHabitDayRatio habit (date day)
          then getHabitStreak_loop habit i (count + 1)
          else count
      | None => count
      end
  end.

Definition getHabitStreak (habit : Row) : nat :=
  getHabitStreak_loop habit (length days) 0.

(** One iteration of the forward loop of [getHabitLongestStreak], on the
    pair [(max, current)]. *)
Definition longest_step (habit : Row) (st : nat * nat) (day : Day) : nat * nat :=
  let '(max, current) := st in
  if 0 <? getHabitDayRatio habit (date day)
  then let current := current + 1 in
       (if max <? current then current else max, current)
  else (max, 0).

Definition getHabitLongestStreak (habit : Row) : nat :=
  fst (fold_left (longest_step habit) days (0, 0)).

End Analytics.

(** ** Aggregates computed on every render *)

Section Aggregates.

Variable days : list Day.
Variable habits : list Row.
Variable entries : list Row.

Import Number.

Definition totalHabits : float := of_nat (length habits).




(** The objects [{ habit, streak }] built for [bestHabit]. *)
Record Scored := { habit : Row; streak : nat }.

Definition by_streak_desc (a b : Scored) : Z :=
  (Z.of_nat (streak b) - Z.of_nat (streak a))%Z.

(** [None] is [null]. *)
Definition bestHabit : option Scored :=
  if 0 <? length habits
  then head (JS.sort by_streak_desc
               (map (λ h, {| habit := h;
                             streak := getHabitLongestStreak days entries h |})
                    habits))
  else None.

End Aggregates.

(** ** The dashboard component: state, handlers and remote replies

    An [async] handler runs up to its [await], where the request it sent is
    recorded as in flight; the rest of its body runs when the reply of the
    storage service arrives.  Replies may arrive in any order.  The state
    kept is the state these handlers read or write; the theme, the
    new-habit form and the password form play no part in them. *)

Module Dashboard.

(** The [{ data, error }] of a storage call. *)
Inductive Response (A : Type) :=
| Failed (error : Value)
| Returned (data : A).
Arguments Failed {A} error.
Arguments Returned {A} data.

(** A suspended handler: what it is waiting for and what it closed over. *)
Inductive Pending :=
| AwaitHabits
| AwaitEntries (habitsData : option (list Row))
| AwaitUpsert (habitId : Value) (date : string) (request : Row)
| AwaitDelete (id : Value).

Record State := {
  habits : list Row;
  entries : list Row;
  loading : bool;
  selectedDate : string;
  isDragging : bool;
  dragValue : option bool;            (* [None] is [null] *)
  inflight : list Pending;
  console : list (string * Value)     (* [console.error] lines, oldest first *)
}.

Definition setHabits (f : list Row → list Row) (s : State) : State :=
  {| habits := f (habits s); entries := entries s; loading := loading s;
     selectedDate := selectedDate s; isDragging := isDragging s;
     dragValue := dragValue s; inflight := inflight s; console := console s |}.

Definition setEntries (f : list Row → list Row) (s : State) : State :=
  {| habits := habits s; entries := f (entries s); loading := loading s;
     selectedDate := selectedDate s; isDragging := isDragging s;
     dragValue := dragValue s; inflight := inflight s; console := console s |}.

Definition setLoading (b : bool) (s : State) : State :=
  {| habits := habits s; entries := entries s; loading := b;
     selectedDate := selectedDate s; isDragging := isDragging s;
     dragValue := dragValue s; inflight := inflight s; console := console s |}.

Definition setSelectedDate (d : string) (s : State) : State :=
  {| habits := habits s; entries := entries s; loading := loading s;
     selectedDate := d; isDragging := isDragging s;
     dragValue := dragValue s; inflight := inflight s; console := console s |}.

Definition setIsDragging (b : bool) (s : State) : State :=
  {| habits := habits s; entries := entries s; loading := loading s;
     selectedDate := selectedDate s; isDragging := b;
     dragValue := dragValue s; inflight := inflight s; console := console s |}.

Definition setDragValue (v : option bool) (s : State) : State :=
  {| habits := habits s; entries := entries s; loading := loading s;
     selectedDate := selectedDate s; isDragging := isDragging s;
     dragValue := v; inflight := inflight s; console := console s |}.

(** Send a request and suspend on it. *)
Definition await (p : Pending) (s : State) : State :=
  {| habits := habits s; entries := entries s; loading := loading s;
     selectedDate := selectedDate s; isDragging := isDragging s;
     dragValue := dragValue s; inflight := inflight s ++ [p];
     console := console s |}.

(** The reply for the request at position [i] has arrived. *)
Definition settled (i : nat) (s : State) : State :=
  {| habits := habits s; entries := entries s; loading := loading s;
     selectedDate := selectedDate s; isDragging := isDragging s;
     dragValue := dragValue s; inflight := delete i (inflight s);
     console := console s |}.

Definition console_error (msg : string) (error : Value) (s : State) : State :=
  {| habits := habits s; entries := entries s; loading := loading s;
     selectedDate := selectedDate s; isDragging := isDragging s;
     dragValue := dragValue s; inflight := inflight s;
     console := console s ++ [(msg, error)] |}.

(** [data || []] *)
Definition or_empty (data : option (list Row)) : list Row := default [] data.

(** The state of a freshly mounted dashboard; [lastDay] is
    [days[days.length - 1].date]. *)
Definition initial (lastDay : string) : State :=
  {| habits := []; entries := []; loading := true; selectedDate := lastDay;
     isDragging := false; dragValue := None; inflight := []; console := [] |}.

Section Handlers.

(** The [user] prop. *)
Variable user : option Row.

(** [fetchData], up to its first [await]. *)
Definition fetchData (s : State) : State :=
  match user with
  | None => s
  | Some _ => await AwaitHabits (setLoading true s)
  end.

Definition fetchData_habits (r : Response (option (list Row))) (s : State) : State :=
  match r with
  | Failed habitsError =>
      setLoading false (console_error "Error fetching habits:" habitsError s)
  | Returned habitsData => await (AwaitEntries habitsData) s
  end.

Definition fetchData_entries (habitsData : option (list Row))
    (r : Response (option (list Row))) (s : State) : State :=
  match r with
  | Failed entriesError =>
      setLoading false
        (setHabits (λ _, or_empty habitsData)
           (console_error "Error fetching entries:" entriesError s))
  | Returned entriesData =>
      setLoading false
        (setEntries (λ _, or_empty entriesData)
           (setHabits (λ _, or_empty habitsData) s))
  end.

(** The row sent by [updateEntry]. *)
Definition upsert_request (u : Row) (habitId : Value) (d : string) (value : bool) : Row :=
  {[ "user_id" := get u "id"; "habit_id" := habitId;
     "date" := Str d; "value" := Bool value ]}.

(** [updateEntry], up to its [await]: nothing but the remote upsert is
    started. *)
Definition updateEntry (habitId : Value) (d : string) (value : bool) (s : State) : State :=
  match user with
  | None => s
  | Some u => await (AwaitUpsert habitId d (upsert_request u habitId d value)) s
  end.

(** The updater passed to [setEntries] by [updateEntry]. *)
Definition upsert_local (habitId : Value) (d : string) (data : Row)
    (prev : list Row) : list Row :=
  match findIndex (entry_matches habitId d) prev with
  | Some idx => <[idx := spread (default ∅ (prev !! idx)) data]> prev
  | None => prev ++ [data]
  end.

(** [updateEntry], after its [await]. *)
Definition updateEntry_resume (habitId : Value) (d : string)
    (r : Response Row) (s : State) : State :=
  match r with
  | Failed error => console_error "Error updating entry:" error s
  | Returned data => setEntries (upsert_local habitId d data) s
  end.

(** [handleDeleteHabit], up to its [await]. *)
Definition handleDeleteHabit (id : Value) (s : State) : State :=
  match user with
  | None => s
  | Some _ => await (AwaitDelete id) s
  end.

(** [handleDeleteHabit], after its [await]. *)
Definition handleDeleteHabit_resume (id : Value) (r : Response unit) (s : State) : State :=
  match r with
  | Failed error => console_error "Error deleting habit:" error s
  | Returned _ =>
      setEntries (List.filter (λ e, negb (strict_eq (get e "habit_id") id)))
        (setHabits (List.filter (λ h, negb (strict_eq (get h "id") id))) s)
  end.

(** The value shown for a cell: [entry ? !!entry.value : false]. *)
Definition cell_value (s : State) (habitId : Value) (d : string) : bool :=
  match getEntry (entries s) habitId d with
  | Some current => truthy (get current "value")
  | None => false
  end.

Definition onMouseDown (habit : Row) (day : Day) (s : State) : State :=
  let currentVal := cell_value s (get habit "id") (date day) in
  let nextVal := negb currentVal in
  updateEntry (get habit "id") (date day) nextVal
    (setDragValue (Some nextVal)
       (setIsDragging true (setSelectedDate (date day) s))).

Definition onMouseEnter (habit : Row) (day : Day) (s : State) : State :=
  match isDragging s, dragValue s with
  | true, Some target => updateEntry (get habit "id") (date day) target s
  | _, _ => s
  end.

Definition handleMouseUp (s : State) : State :=
  setDragValue None (setIsDragging false s).

(** The "Mark done" button of the selected day. *)
Definition onClickToggle (habit : Row) (s : State) : State :=
  let value := cell_value s (get habit "id") (selectedDate s) in
  updateEntry (get habit "id") (selectedDate s) (negb value) s.

Inductive Event :=
| Mount
| MouseDown (habit : Row) (day : Day)
| MouseEnter (habit : Row) (day : Day)
| MouseUp
| ClickToggle (habit : Row)
| ClickDelete (id : Value)
| HabitsReply (i : nat) (r : Response (option (list Row)))
| EntriesReply (i : nat) (r : Response (option (list Row)))
| UpsertReply (i : nat) (r : Response Row)
| DeleteReply (i : nat) (r : Response unit).

(** One event, processed to completion.  A reply is matched with the
    suspended handler it answers; a reply that answers nothing in flight
    does not occur and changes nothing. *)
Definition step (ev : Event) (s : State) : State :=
  match ev with
  | Mount => fetchData s
  | MouseDown habit day => onMouseDown habit day s
  | MouseEnter habit day => onMouseEnter habit day s
  | MouseUp => handleMouseUp s
  | ClickToggle habit => onClickToggle habit s
  | ClickDelete id => handleDeleteHabit id s
  | HabitsReply i r =>
      match inflight s !! i with
      | Some AwaitHabits => fetchData_habits r (settled i s)
      | _ => s
      end
  | EntriesReply i r =>
      match inflight s !! i with
      | Some (AwaitEntries habitsData) => fetchData_entries habitsData r (settled i s)
      | _ => s
      end
  | UpsertReply i r =>
      match inflight s !! i with
      | Some (AwaitUpsert habitId d _) => updateEntry_resume habitId d r (settled i s)
      | _ => s
      end
  | DeleteReply i r =>
      match inflight s !! i with
      | Some (AwaitDelete id) => handleDeleteHabit_resume id r (settled i s)
      | _ => s
      end
  end.

Definition run (evs : list Event) (s : State) : State :=
  fold_left (λ s ev, step ev s) evs s.

End Handlers.

(** The suspended [updateEntry] of user [u] that paints [value] on the
    cell of [habit] and [day]. *)
Definition painted (u habit : Row) (day : Day) (value : bool) : Pending :=
  AwaitUpsert (get habit "id") (date day)
    (upsert_request u (get habit "id") (date day) value).

End Dashboard.

(** ** Done-day patterns

    Vocabulary for stating the streak properties: the axis seen as the
    sequence of its done / not-done flags, and the pattern made of runs of
    done days of given lengths with one not-done day between two runs. *)

Definition done_pattern (days : list Day) (entries : list Row) (habit : Row) : list bool :=
  map (done entries habit) days.

Fixpoint runs_pattern (runs : list nat) : list bool :=
  match runs with
  | [] => []
  | [r] => replicate r true
  | r :: rest => replicate r true ++ false :: runs_pattern rest
  end.

(** The habit's entry for that day exists and holds a true value. *)
Definition entry_true (entries : list Row) (habit : Row) (day : Day) : Prop :=
  ∃ e, getEntry entries (get habit "id") (date day) = Some e ∧
       truthy (get e "value") = true.

(** ** Sample data *)

Module Sample.

Definition day (d : string) : Day :=
  {| date := d; label := d; weekdayRow := 0; weekdayLabel := Some "Mon";
     dayOfMonth := 1; monthIndex := 0; monthShort := "Jan" |}.

Definition entry (habitId : Z) (d : string) (value : bool) : Row :=
  {[ "user_id" := Str "u1"; "habit_id" := Num habitId;
     "date" := Str d; "value" := Bool value ]}.

Definition habit (id : Z) (name : string) : Row :=
  {[ "id" := Num id; "user_id" := Str "u1"; "name" := Str name ]}.

Definition user : Row := {[ "id" := Str "u1" ]}.

Definition run_habit : Row := habit 1 "run".
Definition read_habit : Row := habit 2 "read".

(** Fourteen days on which habit 1 is done in runs of 3, 0, 5, 0 and 2
    days; the entry of the eleventh day is stored with a false value, the
    other not-done days have no entry. *)
Definition two_weeks : list Day :=
  day <$> ["2024-01-01"; "2024-01-02"; "2024-01-03"; "2024-01-04";
           "2024-01-05"; "2024-01-06"; "2024-01-07"; "2024-01-08";
           "2024-01-09"; "2024-01-10"; "2024-01-11"; "2024-01-12";
           "2024-01-13"; "2024-01-14"].

Definition run_entries : list Row :=
  [entry 1 "2024-01-01" true; entry 1 "2024-01-02" true;
   entry 1 "2024-01-03" true; entry 1 "2024-01-06" true;
   entry 1 "2024-01-07" true; entry 1 "2024-01-08" true;
   entry 1 "2024-01-09" true; entry 1 "2024-01-10" true;
   entry 1 "2024-01-11" false; entry 1 "2024-01-13" true;
   entry 1 "2024-01-14" true].

End Sample.

(** The body of the longest-streak loop as it acts on a done flag. *)
Definition pattern_step (st : nat * nat) (flag : bool) : nat * nat :=
  if flag then (Nat.max st.1 (st.2 + 1), st.2 + 1) else (st.1, 0).

Module SampleHabits.

(** Habit 2 is done on the first five days, so both sample habits have a
    longest streak of 5. *)
Definition read_entries : list Row :=
  [Sample.entry 2 "2024-01-01" true; Sample.entry 2 "2024-01-02" true;
   Sample.entry 2 "2024-01-03" true; Sample.entry 2 "2024-01-04" true;
   Sample.entry 2 "2024-01-05" true].

Definition all_entries : list Row := Sample.run_entries ++ read_entries.

Definition habits : list Row := [Sample.read_habit; Sample.run_habit].

End SampleHabits.

(** ** Store invariant and storage contract *)

(** The natural key of an entry within one user's store. *)
Definition entry_key (e : Row) : Value * Value :=
  (get e "habit_id", get e "date").

(** No two entries of the store share a (habit, date) key. *)
Definition unique_keys (store : list Row) : Prop := NoDup (entry_key <$> store).

(** What the storage service guarantees about the replies it sends in
    state [s]: the row confirming an upsert carries the key that was sent,
    and a fetched entry list has no two rows with the same key (the table
    has a uniqueness constraint on it). *)
Definition contract (s : Dashboard.State) (ev : Dashboard.Event) : Prop :=
  match ev with
  | Dashboard.UpsertReply i (Dashboard.Returned data) =>
      ∀ habitId d request,
        Dashboard.inflight s !! i = Some (Dashboard.AwaitUpsert habitId d request) →
        get data "habit_id" = habitId ∧ get data "date" = Str d
  | Dashboard.EntriesReply i (Dashboard.Returned entriesData) =>
      unique_keys (Dashboard.or_empty entriesData)
  | _ => True
  end.

(** A sequence of events all of whose replies obey the contract. *)
Fixpoint trace_ok (user : option Row) (s : Dashboard.State)
    (evs : list Dashboard.Event) : Prop :=
  match evs with
  | [] => True
  | ev :: evs => contract s ev ∧ trace_ok user (Dashboard.step user ev s) evs
  end.

Module SampleSession.

Import Dashboard.

(** A session: the data loads, the user presses on 4 January for habit 1,
    drags over 5 January and releases; the two confirmations arrive in
    the reverse order. *)
Definition events : list Event :=
  [ Mount;
    HabitsReply 0 (Returned (Some [Sample.run_habit]));
    EntriesReply 0 (Returned (Some Sample.run_entries));
    MouseDown Sample.run_habit (Sample.day "2024-01-04");
    MouseEnter Sample.run_habit (Sample.day "2024-01-05");
    UpsertReply 1 (Returned (Sample.entry 1 "2024-01-05" true));
    UpsertReply 0 (Returned (Sample.entry 1 "2024-01-04" true));
    MouseUp ].

(** The state once the data has loaded. *)
Definition loaded : State :=
  run (Some Sample.user) (take 3 events) (initial "2024-01-14").

(** The delete button of habit 1 has been pressed. *)
Definition deleting : State :=
  step (Some Sample.user) (ClickDelete (Num 1)) loaded.

End SampleSession.

Module SampleOrphan.

Import Dashboard.

(** A session in which the confirmation of a write outlives its habit: the
    user marks 4 January done for habit 1 and deletes the habit; the
    deletion is confirmed first, the write afterwards. *)
Definition events : list Event :=
  [ Mount;
    HabitsReply 0 (Returned (Some [Sample.run_habit]));
    EntriesReply 0 (Returned (Some []));
    MouseDown Sample.run_habit (Sample.day "2024-01-04");
    MouseUp;
    ClickDelete (Num 1);
    DeleteReply 1 (Returned ());
    UpsertReply 0 (Returned (Sample.entry 1 "2024-01-04" true)) ].

Definition final : State :=
  run (Some Sample.user) events (initial "2024-01-14").

End SampleOrphan.

Module SampleHosts.

Import JSDate.

Definition en_months : list string :=
  ["Jan"; "Feb"; "Mar"; "Apr"; "May"; "Jun";
   "Jul"; "Aug"; "Sep"; "Oct"; "Nov"; "Dec"].

Definition en_month (m : Z) : string := default "" (en_months !! Z.to_nat m).

Definition en_day_month (m d : Z) : string :=
  en_month m +:+ " " +:+ (if (d <? 10)%Z then pad 1 d else pad 2 d).

(** A browser in India: UTC+05:30 all year, English month names. *)
Definition kolkata : Host :=
  {| LocalTZA := 19800000;
     locale_day_month := en_day_month; locale_month := en_month |}.

(** The same browser on UTC. *)
Definition utc : Host :=
  {| LocalTZA := 0;
     locale_day_month := en_day_month; locale_month := en_month |}.

(** 10 March 2024, 12:00 in India (06:30 UTC). *)
Definition noon_10_march_2024 : Z := 1710052200000.

End SampleHosts.

(** ** The rest of the dashboard's derived values *)

(** The class of a heatmap cell, from its ratio. *)
Definition getColorClass (ratio : float) : string :=
  if (ratio =? 0)%float then "bg-slate-100"
  else if (ratio <? 0.25)%float then "bg-emerald-50"
  else if (ratio <? 0.5)%float then "bg-emerald-100"
  else if (ratio <? 0.75)%float then "bg-emerald-200"
  else "bg-emerald-300".

(** The class and the title suffix that the grid computes for the cell of
    [habit] on [day]. *)
Definition cell_class (entries : list Row) (habit : Row) (day : Day) : string :=
  getColorClass (Number.of_nat (getHabitDayRatio entries habit (date day))).

Definition cell_title (entries : list Row) (habit : Row) (day : Day) : string :=
  if 0 <? getHabitDayRatio entries habit (date day) then "Done" else "Not done".

(** The month blocks of the grid.  [groups] is a sparse array: a list
    whose holes are [None].  A month index that is not an array index
    names a property that [filter] never visits, so such a day leaves the
    elements as they are. *)
Module Months.

Abbreviation month_of := monthIndex.
Abbreviation short_of := monthShort.

Record Group := { monthIndex : Z; monthShort : string; days : list Day }.

Definition is_index (m : Z) : bool := ((0 <=? m) && (m <? 4294967295))%Z.

(** [groups[i] = g], extending the array with holes when needed. *)
Definition assign (groups : list (option Group)) (i : nat) (g : Group)
    : list (option Group) :=
  if i <? length groups then <[i := Some g]> groups
  else groups ++ replicate (i - length groups) None ++ [Some g].

(** The body of the [forEach]. *)
Definition step (groups : list (option Group)) (day : Day) : list (option Group) :=
  let m := month_of day in
  if is_index m then
    let i := Z.to_nat m in
    let groups :=
      match groups !! i with
      | Some (Some _) => groups
      | _ => assign groups i
               {| monthIndex := m; monthShort := short_of day; days := [] |}
      end in
    match groups !! i with
    | Some (Some g) =>
        <[i := Some {| monthIndex := monthIndex g; monthShort := monthShort g;
                       days := days g ++ [day] |}]> groups
    | _ => groups
    end
  else groups.

(** [groups.filter(Boolean)] after the loop. *)
Definition months (axis : list Day) : list Group :=
  omap id (fold_left step axis []).

(** The element at an index, a hole and an index past the end alike
    reading as [None]. *)
Definition slot (groups : list (option Group)) (i : nat) : option Group :=
  default None (groups !! i).

(** The days of the axis that fall in month [i], in axis order. *)
Definition in_month (i : nat) (axis : list Day) : list Day :=
  List.filter (λ d, (month_of d =? Z.of_nat i)%Z) axis.

(** The array holds, at each index, the block of the days seen so far
    that fall in that month, labelled by the first of them, and a hole
    where there is no such day. *)
Definition tracks (seen : list Day) (groups : list (option Group)) : Prop :=
  ∀ i, match slot groups i with
       | Some g =>
           monthIndex g = Z.of_nat i ∧ days g = in_month i seen ∧
           ∃ first rest, in_month i seen = first :: rest ∧
                         monthShort g = short_of first
       | None => in_month i seen = []
       end.

(** Month indices never decrease along the axis. *)
Definition ascending (axis : list Day) : Prop :=
  ∀ i j a b, i < j → axis !! i = Some a → axis !! j = Some b →
             (month_of a ≤ month_of b)%Z.

End Months.

(** ** Creating a habit

    The form state [newHabit] and the handler of the "Add habit" form, next
    to the dashboard state.  [trim] is the language's [String.prototype.trim],
    left as it is: nothing below depends on which characters it strips. *)

Module Creation.

Record NewHabit := { name : string }.

Record Session := {
  dashboard : Dashboard.State;
  newHabit : NewHabit;
  inserts : list Row      (* insert requests awaiting their reply *)
}.

Section Handlers.

Variable trim : string → string.
Variable user : option Row.

(** The row sent by [handleCreateHabit]. *)
Definition insert_request (u : Row) (trimmed : string) : Row :=
  {[ "user_id" := get u "id"; "name" := Str trimmed ]}.

(** The input's [onChange]. *)
Definition onChangeName (value : string) (s : Session) : Session :=
  {| dashboard := dashboard s; newHabit := {| name := value |};
     inserts := inserts s |}.

(** [handleCreateHabit], up to its [await]. *)
Definition handleCreateHabit (s : Session) : Session :=
  match user with
  | None => s
  | Some u =>
      if negb (truthy (Str (trim (name (newHabit s))))) then s
      else {| dashboard := dashboard s; newHabit := newHabit s;
              inserts := inserts s ++
                           [insert_request u (trim (name (newHabit s)))] |}
  end.

(** [handleCreateHabit], after its [await]. *)
Definition handleCreateHabit_resume (r : Dashboard.Response Row) (s : Session)
    : Session :=
  match r with
  | Dashboard.Failed error =>
      {| dashboard := Dashboard.console_error "Error creating habit:" error
                        (dashboard s);
         newHabit := newHabit s; inserts := inserts s |}
  | Dashboard.Returned data =>
      {| dashboard := Dashboard.setHabits (λ prev, prev ++ [data]) (dashboard s);
         newHabit := {| name := "" |}; inserts := inserts s |}
  end.

(** The reply to the insert at position [i]; a reply that answers nothing
    in flight does not occur. *)
Definition insert_reply (i : nat) (r : Dashboard.Response Row) (s : Session)
    : Session :=
  match inserts s !! i with
  | Some _ =>
      handleCreateHabit_resume r
        {| dashboard := dashboard s; newHabit := newHabit s;
           inserts := delete i (inserts s) |}
  | None => s
  end.

End Handlers.

End Creation.

(** ** Changing the password

    The strings typed by the user are sequences of UTF-16 code units, so
    that [length] is the language's. *)

Module Password.

Abbreviation Text := (list N).

(** The outcome of [supabase.auth.updateUser]: done, or an error object
    (returned or thrown). *)
Inductive Reply :=
| Updated
| Rejected (err : Row).

Record Form := {
  newPassword : Text;
  confirmPassword : Text;
  passwordMsg : Value;
  updates : list Text;     (* passwords sent, awaiting their reply *)
  console : list Row
}.

Definition setPasswordMsg (msg : Value) (s : Form) : Form :=
  {| newPassword := newPassword s; confirmPassword := confirmPassword s;
     passwordMsg := msg; updates := updates s; console := console s |}.

(** [a || b] *)
Definition or_else (a b : Value) : Value := if truthy a then a else b.

(** [handleChangePassword], up to its [await]. *)
Definition handleChangePassword (s : Form) : Form :=
  let s := setPasswordMsg (Str "") s in
  if bool_decide (newPassword s = []) || (length (newPassword s) <? 6)
  then setPasswordMsg (Str "Password must be at least 6 characters.") s
  else if negb (bool_decide (newPassword s = confirmPassword s))
  then setPasswordMsg (Str "Passwords do not match.") s
  else {| newPassword := newPassword s; confirmPassword := confirmPassword s;
          passwordMsg := passwordMsg s;
          updates := updates s ++ [newPassword s]; console := console s |}.

(** [handleChangePassword], after its [await]. *)
Definition handleChangePassword_resume (r : Reply) (s : Form) : Form :=
  match r with
  | Updated =>
      {| newPassword := []; confirmPassword := [];
         passwordMsg := Str "Password updated successfully ✅";
         updates := updates s; console := console s |}
  | Rejected err =>
      {| newPassword := newPassword s; confirmPassword := confirmPassword s;
         passwordMsg := or_else (get err "message")
                          (Str "Failed to update password.");
         updates := updates s; console := console s ++ [err] |}
  end.

Definition update_reply (i : nat) (r : Reply) (s : Form) : Form :=
  match updates s !! i with
  | Some _ =>
      handleChangePassword_resume r
        {| newPassword := newPassword s; confirmPassword := confirmPassword s;
           passwordMsg := passwordMsg s; updates := delete i (updates s);
           console := console s |}
  | None => s
  end.

End Password.

(** ** The sign-in overlay

    [handleSubmit] and [handleForgotPassword] of [AuthOverlay].  The
    overlay calls [onAuthSuccess] with a user; the users it was called
    with are collected in [granted]. *)

Module Auth.

(** A suspended handler and what it sent. *)
Inductive Pending :=
| AwaitSignUp (email password username : string)
| AwaitSignIn (email password : string)
| AwaitUser
| AwaitReset (email : string).

(** The [{ error }] of an auth call (or what it threw). *)
Inductive Reply :=
| Accepted
| Refused (err : Row).

Record Overlay := {
  email : string;
  password : string;
  username : string;
  submitting : bool;
  errorMsg : Value;
  infoMsg : Value;
  waiting : list Pending;
  console : list Row;
  granted : list Row
}.

Definition update (submitting' : bool) (errorMsg' infoMsg' : Value)
    (waiting' : list Pending) (console' granted' : list Row) (s : Overlay)
    : Overlay :=
  {| email := email s; password := password s; username := username s;
     submitting := submitting'; errorMsg := errorMsg'; infoMsg := infoMsg';
     waiting := waiting'; console := console'; granted := granted' |}.

Definition fresh (email' password' username' : string) : Overlay :=
  {| email := email'; password := password'; username := username';
     submitting := false; errorMsg := Str ""; infoMsg := Str "";
     waiting := []; console := []; granted := [] |}.

Section Handlers.

Variable trim : string → string.
Variable mode : string.          (* "login" or "signup" *)

(** [handleSubmit], up to its first [await] (or to its end). *)
Definition handleSubmit (s : Overlay) : Overlay :=
  if String.eqb mode "signup" then
    if negb (truthy (Str (trim (username s)))) then
      update false (Str "Please choose a username.") (Str "")
        (waiting s) (console s) (granted s) s
    else
      update true (Str "") (Str "")
        (waiting s ++ [AwaitSignUp (email s) (password s) (trim (username s))])
        (console s) (granted s) s
  else
    update true (Str "") (Str "")
      (waiting s ++ [AwaitSignIn (email s) (password s)])
      (console s) (granted s) s.

(** After the sign-up or sign-in call. *)
Definition handleSubmit_signed (r : Reply) (s : Overlay) : Overlay :=
  match r with
  | Refused err =>
      update false
        (Password.or_else (get err "message") (Str "Something went wrong."))
        (infoMsg s) (waiting s) (console s ++ [err]) (granted s) s
  | Accepted =>
      update (submitting s) (errorMsg s) (infoMsg s)
        (waiting s ++ [AwaitUser]) (console s) (granted s) s
  end.

(** After [getUser]; [None] is a [null] user. *)
Definition handleSubmit_user (user : option Row) (s : Overlay) : Overlay :=
  match user with
  | Some u =>
      update false (errorMsg s) (infoMsg s) (waiting s) (console s)
        (granted s ++ [u]) s
  | None =>
      update false (Str "Could not retrieve user after auth.") (infoMsg s)
        (waiting s) (console s) (granted s) s
  end.

(** [handleForgotPassword], up to its [await] (or to its end). *)
Definition handleForgotPassword (s : Overlay) : Overlay :=
  if negb (truthy (Str (email s))) then
    update (submitting s)
      (Str "Enter your email first, then click 'Forgot password'.") (Str "")
      (waiting s) (console s) (granted s) s
  else
    update (submitting s) (Str "") (Str "")
      (waiting s ++ [AwaitReset (email s)]) (console s) (granted s) s.

Definition handleForgotPassword_resume (r : Reply) (s : Overlay) : Overlay :=
  match r with
  | Accepted =>
      update (submitting s) (errorMsg s)
        (Str "Password reset link sent to your email.")
        (waiting s) (console s) (granted s) s
  | Refused err =>
      update (submitting s)
        (Password.or_else (get err "message") (Str "Failed to send reset email."))
        (infoMsg s) (waiting s) (console s ++ [err]) (granted s) s
  end.

Inductive Event :=
| Submit
| ForgotPassword
| AuthReply (i : nat) (r : Reply)
| UserReply (i : nat) (user : option Row)
| ResetReply (i : nat) (r : Reply).

Definition settled (i : nat) (s : Overlay) : Overlay :=
  update (submitting s) (errorMsg s) (infoMsg s) (delete i (waiting s))
    (console s) (granted s) s.

Definition step (ev : Event) (s : Overlay) : Overlay :=
  match ev with
  | Submit => handleSubmit s
  | ForgotPassword => handleForgotPassword s
  | AuthReply i r =>
      match waiting s !! i with
      | Some (AwaitSignUp _ _ _) | Some (AwaitSignIn _ _) =>
          handleSubmit_signed r (settled i s)
      | _ => s
      end
  | UserReply i user =>
      match waiting s !! i with
      | Some AwaitUser => handleSubmit_user user (settled i s)
      | _ => s
      end
  | ResetReply i r =>
      match waiting s !! i with
      | Some (AwaitReset _) => handleForgotPassword_resume r (settled i s)
      | _ => s
      end
  end.

Definition run (evs : list Event) (s : Overlay) : Overlay :=
  fold_left (λ s ev, step ev s) evs s.

End Handlers.

(** A sign-up, a sign-in or the user lookup that follows one. *)
Definition signing (p : Pending) : bool :=
  match p with
  | AwaitReset _ => false
  | _ => true
  end.

(** The three facts kept along a session of the overlay that has seen the
    events [past]: the form is busy only while a sign-in is in flight; a
    user lookup is in flight, or access was granted, only after a sign-in
    was accepted; every user access was granted to came from a lookup. *)
Definition overlay_ok (past : list Event) (s : Overlay) : Prop :=
  (submitting s = true → ∃ p, p ∈ waiting s ∧ signing p = true) ∧
  (AwaitUser ∈ waiting s ∨ granted s ≠ [] → ∃ i, AuthReply i Accepted ∈ past) ∧
  (∀ u, u ∈ granted s → ∃ i, UserReply i (Some u) ∈ past).

End Auth.

(** Whether an event is the arrival of a reply (rather than something the
    user or the component does). *)
Definition is_reply (ev : Dashboard.Event) : bool :=
  match ev with
  | Dashboard.HabitsReply _ _ | Dashboard.EntriesReply _ _
  | Dashboard.UpsertReply _ _ | Dashboard.DeleteReply _ _ => true
  | _ => false
  end.

(** ** Day numbers

    Vocabulary for the day axis: the instant at which day number [n]
    starts on the host's clock, and the key that [formatDate] gives to an
    instant of day number [n] of the UTC calendar. *)

Definition local_midnight (host : JSDate.Host) (n : Z) : Z :=
  (n * JSDate.msPerDay - JSDate.LocalTZA host)%Z.

Definition iso_key (n : Z) : string := formatDate (n * JSDate.msPerDay)%Z.

Module SampleForms.

(** A [trim] for names whose only white space is the space character. *)
Fixpoint trim_start (s : string) : string :=
  match s with
  | String c rest =>
      if Ascii.eqb c (Ascii.ascii_of_nat 32) then trim_start rest else s
  | EmptyString => s
  end.

Definition trim (s : string) : string :=
  String.rev (trim_start (String.rev (trim_start s))).

(** The dashboard of the sample session with "  Stretch " typed in the
    habit form. *)
Definition typed : Creation.Session :=
  {| Creation.dashboard := SampleSession.loaded;
     Creation.newHabit := {| Creation.name := "  Stretch " |};
     Creation.inserts := [] |}.

(** "secret1" typed twice, as code units. *)
Definition secret1 : Password.Text := [115; 101; 99; 114; 101; 116; 49]%N.

Definition password_form : Password.Form :=
  {| Password.newPassword := secret1; Password.confirmPassword := secret1;
     Password.passwordMsg := Str ""; Password.updates := [];
     Password.console := [] |}.

(** A sign-in that is accepted, followed by the user lookup. *)
Definition sign_in : list Auth.Event :=
  [Auth.Submit; Auth.AuthReply 0 Auth.Accepted;
   Auth.UserReply 0 (Some Sample.user)].

End SampleForms.

Module SampleMonths.

Definition day (d : string) (m : Z) (short : string) : Day :=
  {| date := d; label := d; weekdayRow := 0; weekdayLabel := Some "Mon";
     dayOfMonth := 1; monthIndex := m; monthShort := short |}.

(** Two days of January, none of February, one of March. *)
Definition axis : list Day :=
  [day "2024-01-30" 0 "Jan"; day "2024-01-31" 0 "Jan"; day "2024-03-01" 2 "Mar"].

End SampleMonths.

Section Summary.

Variable days : list Day.
Variable habits : list Row.
Variable entries : list Row.
Variable selectedDate : string.

Definition selectedCompleted : nat :=
  fold_left
    (λ acc habit,
       acc + (if 0 <? getHabitDayRatio entries habit selectedDate then 1 else 0))
    habits 0.

Definition selectedRatio : float :=
  if (0 <? totalHabits habits)%float
  then (Number.of_nat selectedCompleted / totalHabits habits)%float
  else 0%float.

Definition longestStreakGlobal : nat :=
  fold_left
    (λ max h,
       let s := getHabitLongestStreak days entries h in
       if max <? s then s else max)
    habits 0.

End Summary.

(** * Properties *)

(** ** Streaks *)

Section StreakFacts.

Variable entries : list Row.
Variable habit : Row.

Abbreviation is_done := (λ day, done entries habit day = true).
Abbreviation lstep := (longest_step entries habit).

Lemma longest_step_done m c day :
  done entries habit day = true →
  lstep (m, c) day = (Nat.max m (c + 1), c + 1).
Proof.
  unfold longest_step, done. intros ->.
  destruct (Nat.ltb_spec m (c + 1)); f_equal; lia.
Qed.

Lemma longest_step_skip m c day :
  done entries habit day = false → lstep (m, c) day = (m, 0).
Proof. unfold longest_step, done. by intros ->. Qed.

(** The maximum never drops below its starting value. *)
Lemma longest_fold_ge l : ∀ m c, m ≤ (fold_left lstep l (m, c)).1.
Proof.
  induction l as [|d l IH]; intros m c; [done|]. cbn [fold_left].
  destruct (done entries habit d) eqn:Hd.
  - rewrite longest_step_done by done. etrans; [|apply IH]. lia.
  - rewrite longest_step_skip by done. apply IH.
Qed.

(** Every run of done days is counted: its length is reached by the
    maximum, and a run at the very start continues the running counter. *)
Lemma longest_fold_covers l : ∀ m c a seg b,
  l = a ++ seg ++ b → Forall is_done seg →
  length seg ≤ (fold_left lstep l (m, c)).1 ∧
  (a = [] → seg ≠ [] → c + length seg ≤ (fold_left lstep l (m, c)).1).
Proof.
  induction l as [|d l IH]; intros m c a seg b Hl Hseg.
  - symmetry in Hl. apply app_eq_nil in Hl as [-> Hl].
    apply app_eq_nil in Hl as [-> _]. simpl. split; [lia|done].
  - destruct a as [|d' a]; simpl in Hl.
    + destruct seg as [|d' seg]; simpl in Hl.
      { simpl length. split; [lia|done]. }
      injection Hl as <- Hl. apply Forall_cons in Hseg as [Hd Hseg].
      cbn [fold_left]. rewrite longest_step_done by done.
      destruct seg as [|d2 seg].
      * pose proof (longest_fold_ge l (Nat.max m (c + 1)) (c + 1)).
        simpl length. split; [lia|intros; lia].
      * destruct (IH (Nat.max m (c + 1)) (c + 1) [] (d2 :: seg) b Hl Hseg)
          as [_ Hpre].
        specialize (Hpre eq_refl ltac:(done)). simpl length in *.
        split; [lia|intros; lia].
    + injection Hl as <- Hl. cbn [fold_left].
      split; [|done].
      destruct (done entries habit d) eqn:Hd.
      * rewrite longest_step_done by done. by eapply IH.
      * rewrite longest_step_skip by done. by eapply IH.
Qed.

(** The maximum is the starting one or the length of an actual run. *)
Lemma longest_fold_attained l : ∀ m c,
  (fold_left lstep l (m, c)).1 = m ∨
  ∃ a seg b, l = a ++ seg ++ b ∧ Forall is_done seg ∧
    ((fold_left lstep l (m, c)).1 = length seg ∨
     (a = [] ∧ (fold_left lstep l (m, c)).1 = c + length seg)).
Proof.
  induction l as [|d l IH]; intros m c; [by left|].
  cbn [fold_left]. destruct (done entries habit d) eqn:Hd.
  - rewrite longest_step_done by done.
    destruct (IH (Nat.max m (c + 1)) (c + 1))
      as [HR|(a & seg & b & -> & Hseg & [HR|[-> HR]])].
    + destruct (Nat.max_spec m (c + 1)) as [[_ Hm]|[_ Hm]].
      * right. exists [], [d], l. split; [done|]. split; [by apply Forall_singleton|].
        right. split; [done|]. cbn [length]. lia.
      * left. lia.
    + right. exists (d :: a), seg, b. eauto.
    + right. exists [], (d :: seg), b. split; [done|].
      split; [by apply Forall_cons|]. right. split; [done|]. cbn [length]. lia.
  - rewrite longest_step_skip by done.
    destruct (IH m 0) as [HR|(a & seg & b & -> & Hseg & [HR|[-> HR]])].
    + by left.
    + right. exists (d :: a), seg, b. eauto.
    + right. exists [d], seg, b. split; [done|]. split; [done|]. left. lia.
Qed.

Variable days : list Day.

Lemma longest_covers a seg b :
  days = a ++ seg ++ b → Forall is_done seg →
  length seg ≤ getHabitLongestStreak days entries habit.
Proof. intros H1 H2. by eapply longest_fold_covers. Qed.

Lemma longest_attained :
  ∃ a seg b, days = a ++ seg ++ b ∧ Forall is_done seg ∧
    getHabitLongestStreak days entries habit = length seg.
Proof.
  unfold getHabitLongestStreak.
  destruct (longest_fold_attained days 0 0)
    as [HR|(a & seg & b & Hl & Hseg & [HR|[-> HR]])].
  - exists [], [], days. by rewrite HR.
  - by exists a, seg, b.
  - exists [], seg, b. by rewrite HR.
Qed.

End StreakFacts.

Section StreakLoop.

Variable days : list Day.
Variable entries : list Row.
Variable habit : Row.

(** The backward loop stops at an index [j]: the days from [j] up to [n]
    are all done and the day just before [j], if any, is not. *)
Lemma streak_loop_stops n : ∀ count,
  n ≤ length days →
  ∃ j, j ≤ n ∧
    getHabitStreak_loop days entries habit n count = count + (n - j) ∧
    (∀ i day, j ≤ i < n → days !! i = Some day →
              done entries habit day = true) ∧
    (j = 0 ∨ ∃ j' day, j = S j' ∧ days !! j' = Some day ∧
                       done entries habit day = false).
Proof.
  induction n as [|i IH]; intros count Hn.
  - exists 0. split; [lia|]. split; [simpl; lia|]. split; [intros; lia|by left].
  - destruct (lookup_lt_is_Some_2 days i) as [day Hday]; [lia|].
    cbn [getHabitStreak_loop]. rewrite Hday.
    destruct (0 <? getHabitDayRatio entries habit (date day)) eqn:Hd.
    + destruct (IH (count + 1)) as (j & Hj & Hloop & Hall & Hstop); [lia|].
      exists j. split; [lia|]. split; [lia|]. split; [|done].
      intros k dk Hk Hdk. destruct (decide (k = i)) as [->|].
      * by simplify_eq.
      * apply (Hall k); [lia|done].
    + exists (S i). split; [lia|]. split; [lia|]. split; [intros; lia|].
      right. by exists i, day.
Qed.

Lemma streak_stops :
  ∃ j, j ≤ length days ∧
    getHabitStreak days entries habit = length days - j ∧
    (∀ i day, j ≤ i → days !! i = Some day → done entries habit day = true) ∧
    (j = 0 ∨ ∃ j' day, j = S j' ∧ days !! j' = Some day ∧
                       done entries habit day = false).
Proof.
  destruct (streak_loop_stops (length days) 0) as (j & Hj & Hloop & Hall & Hstop);
    [done|].
  exists j. repeat split; try done.
  intros i day Hi Hday. apply (Hall i); [|done].
  apply lookup_lt_Some in Hday. lia.
Qed.

(** The streak is the length of the longest all-done suffix of the axis. *)
Lemma streak_suffix :
  ∃ pre suf, days = pre ++ suf ∧
    getHabitStreak days entries habit = length suf ∧
    Forall (λ day, done entries habit day = true) suf ∧
    (pre = [] ∨ ∃ pre' day, pre = pre' ++ [day] ∧
                            done entries habit day = false).
Proof.
  destruct streak_stops as (j & Hj & Hs & Hall & Hstop).
  exists (take j days), (drop j days). split; [by rewrite take_drop|].
  split; [by rewrite length_drop|]. split.
  - apply Forall_lookup. intros k day Hk. rewrite lookup_drop in Hk.
    apply (Hall (j + k)); [lia|done].
  - destruct Hstop as [->|(j' & day & -> & Hday & Hd)]; [by left|].
    right. exists (take j' days), day. split; [|done]. by apply take_S_r.
Qed.



Lemma done_entry_true day :
  done entries habit day = true ↔ entry_true entries habit day.
Proof.
  unfold done, entry_true, getHabitDayRatio.
  destruct (getEntry entries (get habit "id") (date day)) as [e|]; split.
  - destruct (truthy (get e "value")) eqn:Ht; [eauto|done].
  - by intros (e' & [= <-] & ->).
  - done.
  - by intros (e' & [=] & _).
Qed.

Lemma streak_le_longest :
  getHabitStreak days entries habit ≤ getHabitLongestStreak days entries habit.
Proof.
  destruct streak_suffix as (pre & suf & Hdays & -> & Hall & _).
  apply (longest_covers entries habit days pre suf []); [|done].
  by rewrite app_nil_r.
Qed.

Lemma longest_le_length :
  getHabitLongestStreak days entries habit ≤ length days.
Proof.
  destruct (longest_attained entries habit days) as (a & seg & b & -> & _ & ->).
  rewrite !length_app. lia.
Qed.

End StreakLoop.



Section Patterns.

Variable entries : list Row.
Variable habit : Row.

Lemma longest_fold_pattern days : ∀ st,
  fold_left (longest_step entries habit) days st =
  fold_left pattern_step (map (done entries habit) days) st.
Proof.
  induction days as [|d days IH]; intros [m c]; [done|].
  cbn [map fold_left]. rewrite <- IH. f_equal.
  unfold pattern_step. destruct (done entries habit d) eqn:Hd.
  - by apply longest_step_done.
  - by apply longest_step_skip.
Qed.

Lemma pattern_fold_run r : ∀ m c,
  fold_left pattern_step (replicate r true) (m, c) =
  (match r with 0 => m | S _ => Nat.max m (c + r) end, c + r).
Proof.
  induction r as [|r IH]; intros m c; cbn [replicate fold_left].
  - f_equal. lia.
  - unfold pattern_step at 2. cbn [fst snd]. rewrite IH.
    destruct r; f_equal; lia.
Qed.

Lemma pattern_fold_runs runs : ∀ m,
  (fold_left pattern_step (runs_pattern runs) (m, 0)).1 =
  Nat.max m (max_list runs).
Proof.
  induction runs as [|r rest IH]; intros m; [simpl; lia|].
  destruct rest as [|r2 rest].
  - cbn [runs_pattern max_list foldr]. rewrite pattern_fold_run.
    destruct r; simpl; lia.
  - change (runs_pattern (r :: r2 :: rest))
      with (replicate r true ++ false :: runs_pattern (r2 :: rest)).
    rewrite fold_left_app, pattern_fold_run. cbn [fold_left].
    unfold pattern_step at 2. cbn [fst snd]. rewrite IH.
    change (max_list (r :: r2 :: rest)) with (Nat.max r (max_list (r2 :: rest))).
    destruct r; simpl; lia.
Qed.

Lemma longest_of_runs days runs :
  done_pattern days entries habit = runs_pattern runs →
  getHabitLongestStreak days entries habit = max_list runs.
Proof.
  unfold getHabitLongestStreak, done_pattern. intros Hp.
  by rewrite longest_fold_pattern, Hp, pattern_fold_runs.
Qed.

End Patterns.

Lemma getEntry_nil habitId d : getEntry [] habitId d = None.
Proof. done. Qed.

(** C2.  [getHabitLongestStreak] is the maximum length of a run of
    consecutive done days in axis order: some run of done days has exactly
    that length and no run of done days is longer.  When the done days form
    runs of lengths [runs] separated by single not-done days the result is
    the largest of those lengths, 5 for the runs 3, 0, 5, 0, 2; and a habit
    without any entry has a longest streak of 0. *)
Theorem C2_longest_streak (days : list Day) (entries : list Row) (habit : Row) :
  (∃ a seg b, days = a ++ seg ++ b ∧ Forall (entry_true entries habit) seg ∧
     getHabitLongestStreak days entries habit = length seg) ∧
  (∀ a seg b, days = a ++ seg ++ b → Forall (entry_true entries habit) seg →
     length seg ≤ getHabitLongestStreak days entries habit) ∧
  (∀ runs, done_pattern days entries habit = runs_pattern runs →
     getHabitLongestStreak days entries habit = max_list runs) ∧
  (done_pattern days entries habit = runs_pattern [3; 0; 5; 0; 2] →
     getHabitLongestStreak days entries habit = 5) ∧
  ((∀ d, getEntry entries (get habit "id") d = None) →
     getHabitLongestStreak days entries habit = 0).
Proof.
  split; [|split; [|split; [|split]]].
  - destruct (longest_attained entries habit days) as (a & seg & b & Hd & Hall & Hl).
    exists a, seg, b. repeat split; try done.
    eapply Forall_impl; [done|]. intros day. apply done_entry_true.
  - intros a seg b Hd Hall. eapply longest_covers; [done|].
    eapply Forall_impl; [done|]. intros day. apply done_entry_true.
  - apply longest_of_runs.
  - intros Hp. by rewrite (longest_of_runs _ _ _ _ Hp).
  - intros Hnone.
    destruct (longest_attained entries habit days) as (a & seg & b & Hd & Hall & ->).
    destruct seg as [|day seg]; [done|]. apply Forall_cons in Hall as [Hday _].
    unfold done, getHabitDayRatio in Hday. by rewrite Hnone in Hday.
Qed.

(** C2 on the sample fortnight, whose done days for habit 1 come in runs of
    3, 0, 5, 0 and 2 days. *)
Lemma C2_longest_streak_witness :
  getHabitLongestStreak Sample.two_weeks Sample.run_entries Sample.run_habit = 5.
Proof.
  refine (proj1 (proj2 (proj2 (proj2
            (C2_longest_streak Sample.two_weeks Sample.run_entries
               Sample.run_habit)))) _).
  by vm_compute.
Defined.

(** C10.  The current streak never exceeds the longest streak, and neither
    exceeds the number of days of the axis. *)
Theorem C10_streak_bounds (days : list Day) (entries : list Row) (habit : Row) :
  getHabitStreak days entries habit ≤ getHabitLongestStreak days entries habit ∧
  getHabitLongestStreak days entries habit ≤ length days ∧
  getHabitStreak days entries habit ≤ length days.
Proof.
  pose proof (streak_le_longest days entries habit).
  pose proof (longest_le_length days entries habit).
  repeat split; [done|done|lia].
Qed.

(** ** Best habit *)

Section BestHabit.

Variable days : list Day.
Variable entries : list Row.

Abbreviation longest := (getHabitLongestStreak days entries).
Abbreviation scored := (λ h, {| habit := h; streak := longest h |}).

Lemma sort_insert_head {A} (cmp : A → A → Z) x sorted :
  head (sort_insert cmp x sorted) =
  Some (match head sorted with
        | None => x
        | Some y => if (cmp x y <=? 0)%Z then x else y
        end).
Proof. destruct sorted as [|y rest]; [done|]. simpl. by case_match. Qed.

(** The head of the sorted scores is the first habit among those with the
    largest score. *)
Lemma sorted_head_first_max habits :
  habits ≠ [] →
  ∃ pre h post, habits = pre ++ h :: post ∧
    head (JS.sort by_streak_desc (map scored habits)) = Some (scored h) ∧
    Forall (λ p, longest p < longest h) pre ∧
    Forall (λ q, longest q ≤ longest h) post.
Proof.
  induction habits as [|x rest IH]; [done|]. intros _.
  cbn [map JS.sort foldr]. rewrite sort_insert_head.
  destruct rest as [|x' rest'].
  { exists [], x, []. by repeat split. }
  destruct IH as (pre & h & post & Hrest & Hhead & Hpre & Hpost); [done|].
  fold (JS.sort by_streak_desc (map scored (x' :: rest'))).
  rewrite Hhead, Hrest. unfold by_streak_desc. cbn [streak].
  destruct (Z.leb_spec (Z.of_nat (longest h) - Z.of_nat (longest x)) 0).
  - exists [], x, (pre ++ h :: post).
    split; [done|]. split; [done|]. split; [done|].
    apply Forall_app. split; [|apply Forall_cons; split].
    + eapply Forall_impl; [done|]. intros p Hp. simpl in Hp. lia.
    + lia.
    + eapply Forall_impl; [done|]. intros q Hq. simpl in Hq. lia.
  - exists (x :: pre), h, post.
    split; [done|]. split; [done|]. split; [|done].
    apply Forall_cons. split; [lia|done].
Qed.

End BestHabit.

(** C7.  For a non-empty habit list [bestHabit] is the habit with the
    largest longest streak, and among several such habits the one that
    comes first in the list (the list is in creation order): every habit
    before it has a strictly smaller longest streak and every habit after
    it has a longest streak that is not larger.  For an empty list it is
    [null]. *)
Theorem C7_best_habit (days : list Day) (habits entries : list Row) :
  (habits = [] → bestHabit days habits entries = None) ∧
  (habits ≠ [] →
   ∃ pre h post, habits = pre ++ h :: post ∧
     bestHabit days habits entries =
       Some {| habit := h; streak := getHabitLongestStreak days entries h |} ∧
     Forall (λ p, getHabitLongestStreak days entries p <
                  getHabitLongestStreak days entries h) pre ∧
     Forall (λ q, getHabitLongestStreak days entries q ≤
                  getHabitLongestStreak days entries h) post).
Proof.
  split.
  - by intros ->.
  - intros Hne. unfold bestHabit.
    destruct habits as [|x rest]; [done|]. cbn [length Nat.ltb Nat.leb].
    by apply sorted_head_first_max.
Qed.

(** C7 on two sample habits that tie at a longest streak of 5: the one
    listed first wins. *)
Lemma C7_best_habit_witness :
  bestHabit Sample.two_weeks SampleHabits.habits SampleHabits.all_entries =
    Some {| habit := Sample.read_habit; streak := 5 |} ∧
  getHabitLongestStreak Sample.two_weeks SampleHabits.all_entries
    Sample.run_habit = 5.
Proof.
  destruct (proj2 (C7_best_habit Sample.two_weeks SampleHabits.habits
                     SampleHabits.all_entries) ltac:(done))
    as (pre & h & post & Hsplit & Hbest & Hpre & Hpost).
  split; [|by vm_compute].
  rewrite Hbest. clear Hbest.
  destruct pre as [|p pre].
  - injection Hsplit as <- _. by vm_compute.
  - exfalso. injection Hsplit as <- Hsplit. apply Forall_cons in Hpre as [Hlt _].
    destruct pre as [|p2 pre].
    + injection Hsplit as <- _. vm_compute in Hlt. lia.
    + injection Hsplit as _ Hsplit. by destruct pre.
Defined.

(** ** The entry store *)

Section ArrayFacts.

Context {A : Type}.
Implicit Types (p : A → bool) (arr : list A).

Lemma findIndex_first p arr i :
  findIndex p arr = Some i →
  ∃ x, arr !! i = Some x ∧ p x = true ∧
       ∀ j y, j < i → arr !! j = Some y → p y = false.
Proof.
  revert i. induction arr as [|a arr IH]; intros i; simpl; [done|].
  destruct (p a) eqn:Hpa.
  - intros [= <-]. exists a. split; [done|]. split; [done|]. intros; lia.
  - destruct (findIndex p arr) as [k|]; simpl; [|done].
    intros [= <-]. destruct (IH k eq_refl) as (x & Hx & Hpx & Hb).
    exists x. split; [done|]. split; [done|].
    intros [|j] y Hj Hy; simpl in Hy; [by simplify_eq|].
    apply (Hb j); [lia|done].
Qed.

Lemma findIndex_is_first p arr i x :
  arr !! i = Some x → p x = true →
  (∀ j y, j < i → arr !! j = Some y → p y = false) →
  findIndex p arr = Some i.
Proof.
  revert i. induction arr as [|a arr IH]; intros i Hx Hpx Hb; [done|].
  simpl. destruct i as [|i]; simpl in Hx.
  - simplify_eq. by rewrite Hpx.
  - rewrite (Hb 0 a); [|lia|done].
    rewrite (IH i); [done|done|done|].
    intros j y Hj Hy. apply (Hb (S j)); [lia|done].
Qed.

Lemma findIndex_None p arr :
  findIndex p arr = None ↔ Forall (λ x, p x = false) arr.
Proof.
  induction arr as [|a arr IH]; simpl; [by split|].
  destruct (p a) eqn:Hpa.
  - split; [done|]. intros [Ha _]%Forall_cons. congruence.
  - rewrite Forall_cons, <- IH. destruct (findIndex p arr) as [k|]; simpl.
    + split; [done|]. by intros [_ [=]].
    + by split.
Qed.

Lemma find_filter p q arr :
  (∀ x, p x = true → q x = true) →
  List.find p (List.filter q arr) = List.find p arr.
Proof.
  intros Hpq. induction arr as [|a arr IH]; [done|]. simpl.
  destruct (q a) eqn:Hqa; simpl; destruct (p a) eqn:Hpa; try done.
  rewrite (Hpq a Hpa) in Hqa. done.
Qed.

Lemma find_none_filter p q arr :
  (∀ x, p x = true → q x = false) → List.find p (List.filter q arr) = None.
Proof.
  intros Hpq. induction arr as [|a arr IH]; [done|]. simpl.
  destruct (q a) eqn:Hqa; simpl; [|done].
  destruct (p a) eqn:Hpa; [|done]. rewrite (Hpq a Hpa) in Hqa. done.
Qed.

Lemma find_findIndex p arr :
  List.find p arr = findIndex p arr ≫= (arr !!.).
Proof.
  induction arr as [|a arr IH]; [done|]. simpl.
  destruct (p a); [done|]. rewrite IH. by destruct (findIndex p arr).
Qed.

End ArrayFacts.

Section Upsert.

Import Dashboard.

Lemma entry_matches_key habitId d e :
  entry_matches habitId d e = true ↔ entry_key e = (habitId, Str d).
Proof.
  unfold entry_matches, entry_key, strict_eq.
  rewrite andb_true_iff, !bool_decide_eq_true. split.
  - by intros [-> ->].
  - by intros [= -> ->].
Qed.

Lemma entry_matches_false_key habitId d e :
  entry_matches habitId d e = false ↔ entry_key e ≠ (habitId, Str d).
Proof.
  rewrite <- entry_matches_key. by destruct (entry_matches habitId d e).
Qed.

Lemma get_spread old data k :
  get (spread old data) k =
  match data !! k with Some v => v | None => get old k end.
Proof.
  unfold get, spread. destruct (data !! k) as [v|] eqn:Hk.
  - by rewrite (lookup_union_Some_l _ _ _ _ Hk).
  - by rewrite lookup_union_r.
Qed.

(** Merging the confirmed row into the entry it confirms keeps the key. *)
Lemma spread_keeps_key habitId d old data :
  entry_key old = (habitId, Str d) → entry_key data = (habitId, Str d) →
  entry_key (spread old data) = (habitId, Str d).
Proof.
  unfold entry_key. intros [= Hh Hd] [= Hh' Hd']. rewrite !get_spread.
  unfold get in Hh', Hd'.
  destruct (data !! "habit_id"), (data !! "date"); simpl in *; congruence.
Qed.

Lemma spread_twice old data : spread (spread old data) data = spread old data.
Proof. unfold spread. by rewrite (assoc_L (∪)), (idemp_L (∪)). Qed.

Lemma spread_empty data : spread ∅ data = data.
Proof. unfold spread. by rewrite (right_id_L ∅ (∪)). Qed.

Lemma upsert_local_found habitId d data prev idx old :
  findIndex (entry_matches habitId d) prev = Some idx → prev !! idx = Some old →
  upsert_local habitId d data prev = <[idx := spread old data]> prev.
Proof. unfold upsert_local. by intros -> ->. Qed.

Lemma upsert_local_fresh habitId d data prev :
  findIndex (entry_matches habitId d) prev = None →
  upsert_local habitId d data prev = prev ++ [data].
Proof. unfold upsert_local. by intros ->. Qed.

(** After an upsert the first entry with the key is the confirmed row,
    merged over the entry that was there. *)
Lemma upsert_local_index habitId d data prev :
  entry_key data = (habitId, Str d) →
  ∃ idx, findIndex (entry_matches habitId d) (upsert_local habitId d data prev)
           = Some idx ∧
         upsert_local habitId d data prev !! idx
           = Some (spread (default ∅ (prev !! idx)) data) ∧
         upsert_local habitId d data prev
           = <[idx := spread (default ∅ (prev !! idx)) data]>
               (upsert_local habitId d data prev).
Proof.
  intros Hkey.
  destruct (findIndex (entry_matches habitId d) prev) as [idx|] eqn:Hidx.
  - destruct (findIndex_first _ _ _ Hidx) as (old & Hold & Hm & Hbefore).
    assert (idx < length prev) by by eapply lookup_lt_Some.
    exists idx. rewrite (upsert_local_found _ _ _ _ _ _ Hidx Hold), Hold. simpl.
    split; [|split].
    + eapply findIndex_is_first.
      * by apply list_lookup_insert_eq.
      * apply entry_matches_key, spread_keeps_key; [|done].
        by apply entry_matches_key.
      * intros j y Hj Hy. rewrite list_lookup_insert_ne in Hy by lia.
        by eapply Hbefore.
    + by apply list_lookup_insert_eq.
    + by rewrite list_insert_insert_eq.
  - rewrite (upsert_local_fresh _ _ _ _ Hidx).
    apply findIndex_None in Hidx.
    exists (length prev). rewrite (lookup_ge_None_2 prev (length prev)) by lia. simpl.
    rewrite spread_empty. split; [|split].
    + eapply findIndex_is_first.
      * by apply list_lookup_middle.
      * by apply entry_matches_key.
      * intros j y Hj Hy. rewrite lookup_app_l in Hy by done.
        rewrite Forall_lookup in Hidx. by eapply Hidx.
    + by apply list_lookup_middle.
    + rewrite insert_app_r_alt by lia. by rewrite Nat.sub_diag.
Qed.

Lemma upsert_local_idempotent habitId d data prev :
  entry_key data = (habitId, Str d) →
  upsert_local habitId d data (upsert_local habitId d data prev) =
  upsert_local habitId d data prev.
Proof.
  intros Hkey.
  destruct (upsert_local_index habitId d data prev Hkey) as (idx & Hidx & Hrow & Hfix).
  rewrite (upsert_local_found _ _ _ _ _ _ Hidx Hrow), spread_twice.
  by rewrite <- Hfix.
Qed.

Lemma upsert_local_unique habitId d data prev :
  entry_key data = (habitId, Str d) →
  unique_keys prev → unique_keys (upsert_local habitId d data prev).
Proof.
  unfold unique_keys. intros Hkey Hnd.
  destruct (findIndex (entry_matches habitId d) prev) as [idx|] eqn:Hidx.
  - destruct (findIndex_first _ _ _ Hidx) as (old & Hold & Hm & _).
    rewrite (upsert_local_found _ _ _ _ _ _ Hidx Hold), list_fmap_insert.
    apply entry_matches_key in Hm.
    rewrite (spread_keeps_key _ _ _ _ Hm Hkey), <- Hm.
    rewrite list_insert_id; [done|]. by rewrite list_lookup_fmap, Hold.
  - rewrite (upsert_local_fresh _ _ _ _ Hidx), fmap_app. simpl.
    apply NoDup_app. split; [done|]. split; [|apply NoDup_singleton].
    intros k Hk Hk'. apply list_elem_of_singleton in Hk' as ->.
    apply list_elem_of_fmap in Hk as (e & He & Hin).
    apply findIndex_None in Hidx. rewrite Forall_forall in Hidx.
    specialize (Hidx e Hin). apply entry_matches_false_key in Hidx. congruence.
Qed.

Lemma filter_unique (q : Row → bool) store :
  unique_keys store → unique_keys (List.filter q store).
Proof.
  unfold unique_keys. induction store as [|e store IH]; [done|].
  cbn [fmap list_fmap]. intros [Hnotin Hnd]%NoDup_cons. simpl.
  destruct (q e); [|by apply IH].
  cbn [fmap list_fmap]. apply NoDup_cons. split; [|by apply IH].
  intros (e' & He' & Hin)%list_elem_of_fmap. apply Hnotin.
  apply list_elem_of_fmap. exists e'. split; [done|].
  apply list_elem_of_In. apply list_elem_of_In in Hin.
  by apply filter_In in Hin as [? _].
Qed.

End Upsert.

Section StoreInvariant.

Import Dashboard.

Variable user : option Row.

Lemma updateEntry_entries habitId d value s :
  entries (updateEntry user habitId d value s) = entries s.
Proof. unfold updateEntry. by destruct user. Qed.

Lemma step_unique ev s :
  unique_keys (entries s) → contract s ev →
  unique_keys (entries (step user ev s)).
Proof.
  intros Hu Hc. destruct ev as [| | | | | |i r|i r|i r|i r]; simpl.
  - unfold fetchData. by destruct user.
  - unfold onMouseDown. by rewrite updateEntry_entries.
  - unfold onMouseEnter. destruct (isDragging s), (dragValue s); try done.
    by rewrite updateEntry_entries.
  - done.
  - unfold onClickToggle. by rewrite updateEntry_entries.
  - unfold handleDeleteHabit. by destruct user.
  - destruct (inflight s !! i) as [[]|]; try done. by destruct r.
  - destruct (inflight s !! i) as [[]|]; try done. by destruct r.
  - destruct (inflight s !! i) as [[| |habitId d request|]|] eqn:Hi; try done.
    destruct r as [error|data]; simpl; [done|].
    destruct (Hc habitId d request Hi) as [Hh Hd].
    apply upsert_local_unique; [|done]. unfold entry_key. by rewrite Hh, Hd.
  - destruct (inflight s !! i) as [[]|]; try done.
    destruct r; simpl; [done|]. by apply filter_unique.
Qed.

Lemma run_unique evs : ∀ s,
  unique_keys (entries s) → trace_ok user s evs →
  unique_keys (entries (run user evs s)).
Proof.
  induction evs as [|ev evs IH]; intros s Hu Hok; [done|].
  destruct Hok as [Hc Hok]. apply IH; [|done]. by apply step_unique.
Qed.

End StoreInvariant.

(** A call of [updateEntry] followed at once by its confirmation. *)
Lemma update_confirmed u s habitId d value data :
  let s' := Dashboard.step (Some u)
              (Dashboard.UpsertReply (length (Dashboard.inflight s))
                 (Dashboard.Returned data))
              (Dashboard.updateEntry (Some u) habitId d value s) in
  Dashboard.entries s' = Dashboard.upsert_local habitId d data (Dashboard.entries s) ∧
  Dashboard.inflight s' = Dashboard.inflight s.
Proof.
  simpl. rewrite list_lookup_middle by done. simpl.
  by rewrite delete_middle, app_nil_r.
Qed.

(** C9.  Upsert is idempotent on the entry store: the updater that merges
    the confirmed row [data] of an upsert for [habitId] and [d] leaves the
    store, when applied twice, as when applied once, and so a call of
    [updateEntry] confirmed with that row and repeated leaves the store as
    the first confirmed call did.  The updater keeps the store free of
    duplicate keys, and so does every other event: in any session that
    starts from the empty store and receives replies that obey the storage
    contract, the store never holds two entries for one (habit, date)
    key. *)
Theorem C9_upsert_idempotent (user : option Row) (prev : list Row)
    (habitId : Value) (d : string) (data : Row)
    (lastDay : string) (evs : list Dashboard.Event) :
  get data "habit_id" = habitId → get data "date" = Str d →
  Dashboard.upsert_local habitId d data
    (Dashboard.upsert_local habitId d data prev) =
  Dashboard.upsert_local habitId d data prev ∧
  (∀ u s value,
     let confirmed_call s :=
       Dashboard.step (Some u)
         (Dashboard.UpsertReply (length (Dashboard.inflight s))
            (Dashboard.Returned data))
         (Dashboard.updateEntry (Some u) habitId d value s) in
     Dashboard.entries (confirmed_call (confirmed_call s)) =
     Dashboard.entries (confirmed_call s)) ∧
  (unique_keys prev → unique_keys (Dashboard.upsert_local habitId d data prev)) ∧
  (trace_ok user (Dashboard.initial lastDay) evs →
   unique_keys (Dashboard.entries (Dashboard.run user evs (Dashboard.initial lastDay)))).
Proof.
  intros Hh Hd.
  assert (entry_key data = (habitId, Str d)) as Hkey.
  { unfold entry_key. by rewrite Hh, Hd. }
  split; [|split; [|split]].
  - by apply upsert_local_idempotent.
  - intros u s value confirmed_call. unfold confirmed_call.
    destruct (update_confirmed u s habitId d value data) as [He1 _].
    destruct (update_confirmed u (confirmed_call s) habitId d value data)
      as [He2 _].
    unfold confirmed_call in He2. rewrite He2, He1.
    by apply upsert_local_idempotent.
  - by apply upsert_local_unique.
  - apply run_unique. apply NoDup_nil_2.
Qed.

(** C9 on the sample store, and on the sample session. *)
Lemma C9_upsert_idempotent_witness :
  Dashboard.upsert_local (Num 1) "2024-01-04" (Sample.entry 1 "2024-01-04" true)
    (Dashboard.upsert_local (Num 1) "2024-01-04"
       (Sample.entry 1 "2024-01-04" true) Sample.run_entries) =
  Dashboard.upsert_local (Num 1) "2024-01-04" (Sample.entry 1 "2024-01-04" true)
    Sample.run_entries ∧
  unique_keys (Dashboard.entries
    (Dashboard.run (Some Sample.user) SampleSession.events
       (Dashboard.initial "2024-01-14"))).
Proof.
  destruct (C9_upsert_idempotent (Some Sample.user) Sample.run_entries (Num 1)
              "2024-01-04" (Sample.entry 1 "2024-01-04" true) "2024-01-14"
              SampleSession.events eq_refl eq_refl) as (Hidem & _ & _ & Hinv).
  split; [exact Hidem|]. apply Hinv.
  repeat split;
    first [ refine (bool_decide_unpack _ _); by vm_compute
          | match goal with
            | H : _ !! _ = Some _ |- _ =>
                vm_compute in H; injection H as <- <- _; by vm_compute
            end ].
Defined.

(** ** Deleting a habit *)

Section Delete.

Import Dashboard.

Lemma elem_of_filter_bool {A} (q : A → bool) (l : list A) x :
  x ∈ List.filter q l ↔ x ∈ l ∧ q x = true.
Proof. rewrite !list_elem_of_In. apply filter_In. Qed.

Lemma strict_eq_false a b : negb (strict_eq a b) = true ↔ a ≠ b.
Proof.
  unfold strict_eq. rewrite negb_true_iff, bool_decide_eq_false. done.
Qed.

Lemma delete_reply_state user s i id :
  inflight s !! i = Some (AwaitDelete id) →
  entries (step user (DeleteReply i (Returned ())) s) =
    List.filter (λ e, negb (strict_eq (get e "habit_id") id)) (entries s) ∧
  habits (step user (DeleteReply i (Returned ())) s) =
    List.filter (λ h, negb (strict_eq (get h "id") id)) (habits s).
Proof. simpl. by intros ->. Qed.

End Delete.

(** C8.  When the deletion of habit [id] is confirmed, the local store has
    no entry of that habit left, so that every lookup of ([id], d) finds
    nothing and reads as not done (ratio 0, cell value false); the lookups
    and the entries of every other habit are the same as before, and the
    habit list loses exactly the habits with that id, the others keeping
    their order.  Pressing delete with a signed-in user is what puts that
    deletion in flight. *)
Theorem C8_delete_habit (user : option Row) (s : Dashboard.State)
    (i : nat) (id : Value) :
  Dashboard.inflight s !! i = Some (Dashboard.AwaitDelete id) →
  let s' := Dashboard.step user
              (Dashboard.DeleteReply i (Dashboard.Returned ())) s in
  Forall (λ e, get e "habit_id" ≠ id) (Dashboard.entries s') ∧
  (∀ d, getEntry (Dashboard.entries s') id d = None) ∧
  (∀ habit d, get habit "id" = id →
     getHabitDayRatio (Dashboard.entries s') habit d = 0) ∧
  (∀ d, Dashboard.cell_value s' id d = false) ∧
  (∀ id' d, id' ≠ id →
     getEntry (Dashboard.entries s') id' d = getEntry (Dashboard.entries s) id' d) ∧
  (∀ e, get e "habit_id" ≠ id →
     e ∈ Dashboard.entries s' ↔ e ∈ Dashboard.entries s) ∧
  Dashboard.habits s' =
    List.filter (λ h, negb (strict_eq (get h "id") id)) (Dashboard.habits s) ∧
  (∀ h, get h "id" ≠ id → h ∈ Dashboard.habits s' ↔ h ∈ Dashboard.habits s) ∧
  (∀ u s0, Dashboard.inflight
             (Dashboard.step (Some u) (Dashboard.ClickDelete id) s0)
             !! length (Dashboard.inflight s0) = Some (Dashboard.AwaitDelete id)).
Proof.
  intros Hi s'. destruct (delete_reply_state user s i id Hi) as [He Hh].
  fold s' in He, Hh.
  assert (∀ d, getEntry (Dashboard.entries s') id d = None) as Hnone.
  { intros d. unfold getEntry. rewrite He. apply find_none_filter.
    intros e [= Hm _]%entry_matches_key. unfold strict_eq.
    by rewrite Hm, bool_decide_eq_true_2. }
  split; [|split; [|split; [|split; [|split; [|split; [|split; [|split]]]]]]].
  - rewrite He. apply Forall_forall. intros e [_ Hq]%elem_of_filter_bool.
    by apply strict_eq_false.
  - done.
  - intros habit d <-. unfold getHabitDayRatio. by rewrite Hnone.
  - intros d. unfold Dashboard.cell_value. by rewrite Hnone.
  - intros id' d Hne. unfold getEntry. rewrite He. apply find_filter.
    intros e [= Hm _]%entry_matches_key. apply strict_eq_false. by rewrite Hm.
  - intros e Hne. rewrite He, elem_of_filter_bool, strict_eq_false.
    split; [by intros [? _]|by split].
  - done.
  - intros h Hne. rewrite Hh, elem_of_filter_bool, strict_eq_false.
    split; [by intros [? _]|by split].
  - intros u s0. simpl. by apply list_lookup_middle.
Qed.

(** C8 on the sample session: 1 January was done for habit 1 and reads as
    not done once the deletion is confirmed. *)
Lemma C8_delete_habit_witness :
  Dashboard.cell_value SampleSession.deleting (Num 1) "2024-01-01" = true ∧
  Dashboard.cell_value
    (Dashboard.step (Some Sample.user)
       (Dashboard.DeleteReply 0 (Dashboard.Returned ())) SampleSession.deleting)
    (Num 1) "2024-01-01" = false.
Proof.
  split; [by vm_compute|].
  exact (proj1 (proj2 (proj2 (proj2
           (C8_delete_habit (Some Sample.user) SampleSession.deleting 0 (Num 1)
              eq_refl)))) "2024-01-01").
Defined.

(** ** The drag gesture and the remote write *)

Section Gesture.

Import Dashboard.

Variable u : Row.

Abbreviation paint := (painted u).

Lemma mouse_down_state habit day s :
  let target := negb (cell_value s (get habit "id") (date day)) in
  let s1 := step (Some u) (MouseDown habit day) s in
  isDragging s1 = true ∧ dragValue s1 = Some target ∧
  selectedDate s1 = date day ∧
  inflight s1 = inflight s ++ [paint habit day target] ∧
  entries s1 = entries s.
Proof. done. Qed.

Lemma mouse_enter_state habit day s target :
  isDragging s = true → dragValue s = Some target →
  let s2 := step (Some u) (MouseEnter habit day) s in
  isDragging s2 = true ∧ dragValue s2 = Some target ∧
  selectedDate s2 = selectedDate s ∧
  inflight s2 = inflight s ++ [paint habit day target] ∧
  entries s2 = entries s.
Proof.
  intros Hdrag Hval. simpl. unfold onMouseEnter. rewrite Hdrag, Hval. done.
Qed.

(** Entering cells one after the other while dragging. *)
Lemma mouse_enters_state cells : ∀ s target,
  isDragging s = true → dragValue s = Some target →
  let s2 := run (Some u) (map (λ c, MouseEnter c.1 c.2) cells) s in
  isDragging s2 = true ∧ dragValue s2 = Some target ∧
  inflight s2 = inflight s ++ map (λ c, paint c.1 c.2 target) cells ∧
  entries s2 = entries s.
Proof.
  induction cells as [|[habit day] cells IH]; intros s target Hdrag Hval.
  - simpl. by rewrite app_nil_r.
  - destruct (mouse_enter_state habit day s target Hdrag Hval)
      as (Hd1 & Hv1 & _ & Hin1 & He1).
    destruct (IH _ target Hd1 Hv1) as (Hd2 & Hv2 & Hin2 & He2).
    cbn [map run fold_left] in *. unfold run in *. cbn [fst snd].
    rewrite Hd2, Hv2, Hin2, He2, Hin1, He1, <- app_assoc. done.
Qed.

(** The confirmed row of an upsert, once merged, is what the cell reads. *)
Lemma upsert_reply_cell user s i habitId d request data value :
  inflight s !! i = Some (AwaitUpsert habitId d request) →
  get data "habit_id" = habitId → get data "date" = Str d →
  data !! "value" = Some (Bool value) →
  cell_value (step user (UpsertReply i (Returned data)) s) habitId d = value.
Proof.
  intros Hi Hh Hd Hv. simpl. rewrite Hi. unfold cell_value, getEntry. simpl.
  rewrite find_findIndex.
  destruct (upsert_local_index habitId d data (entries s))
    as (idx & -> & Hrow & _).
  { unfold entry_key. by rewrite Hh, Hd. }
  simpl. rewrite Hrow. by rewrite get_spread, Hv.
Qed.

End Gesture.

Lemma upsert_request_lookup u habitId d value :
  Dashboard.upsert_request u habitId d value !! "habit_id" = Some habitId ∧
  Dashboard.upsert_request u habitId d value !! "date" = Some (Str d) ∧
  Dashboard.upsert_request u habitId d value !! "value" = Some (Bool value).
Proof. unfold Dashboard.upsert_request. by simplify_map_eq. Qed.

(** C3, as stated, fails.  In the loaded sample session neither 4 nor
    5 January is done for habit 1.  The press on 4 January starts a drag
    that paints "done" and the pointer then enters 5 January, yet the
    starting cell has not been toggled and the entered cell has not been
    set: the store is the loaded one and both cells still read not done.
    The two writes are only in flight; when both fail, the gesture has
    painted nothing at all. *)
Lemma C3_counterexample :
  let s0 := SampleSession.loaded in
  let s1 := Dashboard.step (Some Sample.user)
              (Dashboard.MouseDown Sample.run_habit (Sample.day "2024-01-04")) s0 in
  let s2 := Dashboard.step (Some Sample.user)
              (Dashboard.MouseEnter Sample.run_habit (Sample.day "2024-01-05")) s1 in
  let s3 := Dashboard.run (Some Sample.user)
              [Dashboard.UpsertReply 0 (Dashboard.Failed (Str "offline"));
               Dashboard.UpsertReply 0 (Dashboard.Failed (Str "offline"))] s2 in
  Dashboard.cell_value s0 (Num 1) "2024-01-04" = false ∧
  Dashboard.dragValue s1 = Some true ∧
  Dashboard.cell_value s1 (Num 1) "2024-01-04" = false ∧
  Dashboard.dragValue s2 = Some true ∧
  Dashboard.cell_value s2 (Num 1) "2024-01-04" = false ∧
  Dashboard.cell_value s2 (Num 1) "2024-01-05" = false ∧
  Dashboard.entries s2 = Dashboard.entries s0 ∧
  Dashboard.inflight s2 =
    [Dashboard.painted Sample.user Sample.run_habit (Sample.day "2024-01-04") true;
     Dashboard.painted Sample.user Sample.run_habit (Sample.day "2024-01-05") true] ∧
  Dashboard.inflight s3 = [] ∧
  Dashboard.entries s3 = Dashboard.entries s0 ∧
  Dashboard.cell_value s3 (Num 1) "2024-01-04" = false ∧
  Dashboard.cell_value s3 (Num 1) "2024-01-05" = false.
Proof. intros s0 s1 s2 s3. repeat split; vm_compute; reflexivity. Qed.

(** C3, amended.  A pointer-down on the cell of [habit] and [day], whose
    current value is [v], starts a drag whose target is [negb v], moves
    the selected date to the cell and at once sends the remote upsert of
    [negb v] for that cell; the local store is not changed by the press,
    so the cell still reads [v].  While a drag with target [target] is
    active, a pointer-enter on any cell sends the remote upsert of that
    same target for the cell, whatever the cell held, and leaves the
    target and the local store as they are; so a whole gesture sends one
    value for every cell it crosses and changes no cell by itself.
    Outside a drag a pointer-enter does nothing, and the release ends the
    drag.  A cell takes the painted value when the row that confirms its
    write is merged into the store; when its write fails, the error is
    logged and every cell reads what it read before. *)
Theorem C3_batch_edit (u : Row) (s : Dashboard.State) (habit : Row) (day : Day)
    (cells : list (Row * Day)) :
  let v := Dashboard.cell_value s (get habit "id") (date day) in
  let s1 := Dashboard.step (Some u) (Dashboard.MouseDown habit day) s in
  (Dashboard.isDragging s1 = true ∧ Dashboard.dragValue s1 = Some (negb v) ∧
   Dashboard.selectedDate s1 = date day ∧
   Dashboard.inflight s1 =
     Dashboard.inflight s ++ [Dashboard.painted u habit day (negb v)] ∧
   Dashboard.entries s1 = Dashboard.entries s ∧
   Dashboard.cell_value s1 (get habit "id") (date day) = v) ∧
  (∀ s' habit' day' target,
     Dashboard.isDragging s' = true → Dashboard.dragValue s' = Some target →
     let s2 := Dashboard.step (Some u) (Dashboard.MouseEnter habit' day') s' in
     Dashboard.inflight s2 =
       Dashboard.inflight s' ++ [Dashboard.painted u habit' day' target] ∧
     Dashboard.dragValue s2 = Some target ∧ Dashboard.isDragging s2 = true ∧
     Dashboard.entries s2 = Dashboard.entries s' ∧
     Dashboard.cell_value s2 (get habit' "id") (date day') =
       Dashboard.cell_value s' (get habit' "id") (date day')) ∧
  (let s2 := Dashboard.run (Some u)
               (Dashboard.MouseDown habit day ::
                map (λ c, Dashboard.MouseEnter c.1 c.2) cells) s in
   Dashboard.dragValue s2 = Some (negb v) ∧
   Dashboard.inflight s2 =
     Dashboard.inflight s ++
       Dashboard.painted u habit day (negb v) ::
       map (λ c, Dashboard.painted u c.1 c.2 (negb v)) cells ∧
   Dashboard.entries s2 = Dashboard.entries s ∧
   (∀ id' d', Dashboard.cell_value s2 id' d' = Dashboard.cell_value s id' d')) ∧
  (∀ s' habit' day',
     Dashboard.isDragging s' = false →
     Dashboard.step (Some u) (Dashboard.MouseEnter habit' day') s' = s') ∧
  (∀ s', let s2 := Dashboard.step (Some u) Dashboard.MouseUp s' in
     Dashboard.isDragging s2 = false ∧ Dashboard.dragValue s2 = None ∧
     Dashboard.entries s2 = Dashboard.entries s' ∧
     Dashboard.inflight s2 = Dashboard.inflight s') ∧
  (∀ s' i habit' day' target data,
     Dashboard.inflight s' !! i = Some (Dashboard.painted u habit' day' target) →
     Dashboard.upsert_request u (get habit' "id") (date day') target ⊆ data →
     Dashboard.cell_value
       (Dashboard.step (Some u) (Dashboard.UpsertReply i (Dashboard.Returned data)) s')
       (get habit' "id") (date day') = target) ∧
  (∀ s' i habit' day' target error,
     Dashboard.inflight s' !! i = Some (Dashboard.painted u habit' day' target) →
     let s2 := Dashboard.step (Some u)
                 (Dashboard.UpsertReply i (Dashboard.Failed error)) s' in
     Dashboard.entries s2 = Dashboard.entries s' ∧
     (∀ id' d', Dashboard.cell_value s2 id' d' = Dashboard.cell_value s' id' d') ∧
     Dashboard.console s2 =
       Dashboard.console s' ++ [("Error updating entry:", error)]).
Proof.
  intros v s1.
  destruct (mouse_down_state u habit day s) as (Hd & Hv & Hsel & Hin & He).
  fold v s1 in Hd, Hv, Hsel, Hin, He.
  split.
  { repeat (split; [done|]). unfold Dashboard.cell_value. by rewrite He. }
  split; [|split; [|split; [|split; [|split]]]].
  - intros s' habit' day' target Hdrag Hval.
    destruct (mouse_enter_state u habit' day' s' target Hdrag Hval)
      as (? & ? & _ & ? & He').
    repeat (split; [done|]). unfold Dashboard.cell_value. by rewrite He'.
  - destruct (mouse_enters_state u cells s1 (negb v) Hd Hv)
      as (_ & Hv2 & Hin2 & He2).
    cbn [Dashboard.run fold_left]. fold s1.
    unfold Dashboard.run in Hv2, Hin2, He2.
    rewrite Hv2, Hin2, Hin, <- app_assoc.
    split; [done|]. split; [done|].
    assert (Dashboard.entries
              (fold_left (λ s0 ev, Dashboard.step (Some u) ev s0)
                 (map (λ c, Dashboard.MouseEnter c.1 c.2) cells) s1) =
            Dashboard.entries s) as Hes by (by rewrite He2, He).
    split; [exact Hes|].
    intros id' d'. unfold Dashboard.cell_value. rewrite Hes. reflexivity.
  - intros s' habit' day' Hdrag. simpl. unfold Dashboard.onMouseEnter.
    by rewrite Hdrag.
  - done.
  - intros s' i habit' day' target data Hi Hsub.
    destruct (upsert_request_lookup u (get habit' "id") (date day') target)
      as (Hh & Hdt & Hval).
    eapply upsert_reply_cell; [done| | |].
    + unfold get. by rewrite (lookup_weaken _ _ _ _ Hh Hsub).
    + unfold get. by rewrite (lookup_weaken _ _ _ _ Hdt Hsub).
    + by apply (lookup_weaken _ _ _ _ Hval Hsub).
  - intros s' i habit' day' target error Hi. simpl.
    unfold Dashboard.painted in Hi. by rewrite Hi.
Qed.

(** C3 amended, on the sample session: 4 January is not done for habit 1,
    so the press starts a drag that paints "done"; entering 5 January
    while dragging sends "done" for it as well and leaves the store as it
    is; the cell of 5 January reads done once its write is confirmed. *)
Lemma C3_batch_edit_witness :
  let s1 := Dashboard.step (Some Sample.user)
              (Dashboard.MouseDown Sample.run_habit (Sample.day "2024-01-04"))
              SampleSession.loaded in
  let s2 := Dashboard.step (Some Sample.user)
              (Dashboard.MouseEnter Sample.run_habit (Sample.day "2024-01-05")) s1 in
  let s3 := Dashboard.step (Some Sample.user)
              (Dashboard.UpsertReply 1
                 (Dashboard.Returned (Sample.entry 1 "2024-01-05" true))) s2 in
  Dashboard.dragValue s1 = Some true ∧
  Dashboard.inflight s2 =
    Dashboard.inflight s1 ++
      [Dashboard.painted Sample.user Sample.run_habit (Sample.day "2024-01-05") true] ∧
  Dashboard.entries s2 = Dashboard.entries s1 ∧
  Dashboard.cell_value s3 (Num 1) "2024-01-05" = true.
Proof.
  intros s1 s2 s3.
  destruct (C3_batch_edit Sample.user SampleSession.loaded Sample.run_habit
              (Sample.day "2024-01-04") [])
    as ((_ & Hval & _) & Henter & _ & _ & _ & Hconfirm & _).
  split; [exact Hval|].
  destruct (Henter s1 Sample.run_habit (Sample.day "2024-01-05") true
              eq_refl Hval) as (Hin & _ & _ & He & _).
  split; [exact Hin|]. split; [exact He|].
  apply (Hconfirm s2 1 Sample.run_habit (Sample.day "2024-01-05") true
           (Sample.entry 1 "2024-01-05" true)); [reflexivity|].
  apply map_subseteq_spec. intros k x Hk.
  destruct (decide (k = "value")) as [->|];
  [|destruct (decide (k = "date")) as [->|];
    [|destruct (decide (k = "habit_id")) as [->|];
      [|destruct (decide (k = "user_id")) as [->|]]]];
  [vm_compute in Hk |- *; done..|].
  unfold Dashboard.upsert_request in Hk. by simplify_map_eq.
Defined.

(** C4, as stated, fails.  In the loaded sample session 4 January is not
    done for habit 1.  The press paints "done" on it, yet the store is
    unchanged when the handler returns (the cell still reads not done), and
    when the remote write then fails the store is still unchanged: it
    never held the painted value. *)
Lemma C4_counterexample :
  let s0 := SampleSession.loaded in
  let s1 := Dashboard.step (Some Sample.user)
              (Dashboard.MouseDown Sample.run_habit (Sample.day "2024-01-04")) s0 in
  let s2 := Dashboard.step (Some Sample.user)
              (Dashboard.UpsertReply 0 (Dashboard.Failed (Str "offline"))) s1 in
  Dashboard.dragValue s1 = Some true ∧
  Dashboard.inflight s1 =
    [Dashboard.painted Sample.user Sample.run_habit (Sample.day "2024-01-04") true] ∧
  Dashboard.cell_value s1 (Num 1) "2024-01-04" = false ∧
  Dashboard.entries s1 = Dashboard.entries s0 ∧
  Dashboard.cell_value s2 (Num 1) "2024-01-04" = false ∧
  Dashboard.entries s2 = Dashboard.entries s0 ∧
  Dashboard.console s2 = [("Error updating entry:", Str "offline")].
Proof. intros s0 s1 s2. repeat split; vm_compute; reflexivity. Qed.

(** C4, amended.  An entry upsert first sends the remote write and leaves
    the local store as it is until the reply arrives.  When the write
    succeeds, the row returned by the service is merged into the store
    (over the entry with that key, or appended).  When the write fails the
    error is logged and the local store is left unchanged, so it holds what
    it held before the upsert: there is no optimistic value to roll
    back. *)
Theorem C4_remote_first (u : Row) (s : Dashboard.State)
    (habitId : Value) (d : string) (value : bool) :
  (let s1 := Dashboard.updateEntry (Some u) habitId d value s in
   Dashboard.entries s1 = Dashboard.entries s ∧
   Dashboard.inflight s1 =
     Dashboard.inflight s ++
       [Dashboard.AwaitUpsert habitId d
          (Dashboard.upsert_request u habitId d value)]) ∧
  (∀ user s' i request,
     Dashboard.inflight s' !! i = Some (Dashboard.AwaitUpsert habitId d request) →
     (∀ error,
        let s2 := Dashboard.step user
                    (Dashboard.UpsertReply i (Dashboard.Failed error)) s' in
        Dashboard.entries s2 = Dashboard.entries s' ∧
        (∀ id' d', Dashboard.cell_value s2 id' d' = Dashboard.cell_value s' id' d') ∧
        Dashboard.console s2 =
          Dashboard.console s' ++ [("Error updating entry:", error)]) ∧
     (∀ data,
        let s2 := Dashboard.step user
                    (Dashboard.UpsertReply i (Dashboard.Returned data)) s' in
        Dashboard.entries s2 =
          Dashboard.upsert_local habitId d data (Dashboard.entries s') ∧
        Dashboard.console s2 = Dashboard.console s')).
Proof.
  split; [done|].
  intros user s' i request Hi. split.
  - intros error. simpl. by rewrite Hi.
  - intros data. simpl. by rewrite Hi.
Qed.

(** C4 amended, on the sample session: a failed write for 4 January leaves
    the store as loaded. *)
Lemma C4_remote_first_witness :
  let s1 := Dashboard.step (Some Sample.user)
              (Dashboard.MouseDown Sample.run_habit (Sample.day "2024-01-04"))
              SampleSession.loaded in
  Dashboard.entries
    (Dashboard.step (Some Sample.user)
       (Dashboard.UpsertReply 0 (Dashboard.Failed (Str "offline"))) s1) =
  Dashboard.entries s1.
Proof.
  intros s1.
  exact (proj1 (proj1 (proj2 (C4_remote_first Sample.user SampleSession.loaded
                                (Num 1) "2024-01-04" true)
                         (Some Sample.user) s1 0 _ eq_refl) (Str "offline"))).
Defined.

(** ** Completion rate

    Facts about the binary64 specification used below. *)

Section SpecFloatFacts.

#[local] Open Scope Z_scope.

Lemma shr_1_bounds mrs :
  0 ≤ shr_m mrs → 0 ≤ shr_m (shr_1 mrs) ≤ shr_m mrs.
Proof.
  destruct mrs as [m r s]. simpl. destruct m as [|[p|p|]|p]; simpl; lia.
Qed.

Lemma iter_shr_1_bounds n : ∀ mrs,
  0 ≤ shr_m mrs → 0 ≤ shr_m (SpecFloat.iter_pos shr_1 n mrs) ≤ shr_m mrs.
Proof.
  induction n as [n IH|n IH|]; intros mrs Hm; simpl.
  - pose proof (shr_1_bounds mrs Hm).
    pose proof (IH (shr_1 mrs) ltac:(lia)).
    pose proof (IH (SpecFloat.iter_pos shr_1 n (shr_1 mrs)) ltac:(lia)). lia.
  - pose proof (IH mrs Hm).
    pose proof (IH (SpecFloat.iter_pos shr_1 n mrs) ltac:(lia)). lia.
  - by apply shr_1_bounds.
Qed.

Lemma shr_record_of_loc_m m l : shr_m (shr_record_of_loc m l) = m.
Proof. by destruct l as [|[]]. Qed.

Lemma shr_fexp_bounds m e l :
  0 ≤ m →
  0 ≤ shr_m (shr_fexp prec emax m e l).1 ≤ m ∧
  ((shr_fexp prec emax m e l).2 = e ∨
   (shr_fexp prec emax m e l).2 = fexp prec emax (Zdigits2 m + e)).
Proof.
  intros Hm. unfold shr_fexp, shr.
  destruct (fexp prec emax (Zdigits2 m + e) - e) as [|n|n] eqn:Hn; simpl.
  - rewrite shr_record_of_loc_m. split; [lia|by left].
  - pose proof (iter_shr_1_bounds n (shr_record_of_loc m l)) as Hb.
    rewrite shr_record_of_loc_m in Hb. split; [by apply Hb|]. right. lia.
  - rewrite shr_record_of_loc_m. split; [lia|by left].
Qed.

Lemma round_nearest_even_bounds m l :
  0 ≤ m → m ≤ round_nearest_even m l ≤ m + 1.
Proof. intros Hm. destruct l as [|[]]; simpl; try lia. destruct (Z.even m); lia. Qed.

(** Rounding a non-negative mantissa never yields NaN. *)
Lemma binary_round_aux_not_nan sx mx ex lx :
  0 ≤ mx → binary_round_aux prec emax sx mx ex lx ≠ S754_nan.
Proof.
  intros Hm. unfold binary_round_aux.
  destruct (shr_fexp_bounds mx ex lx Hm) as [Hm1 _].
  destruct (shr_fexp prec emax mx ex lx) as [mrs' e']; simpl in Hm1.
  pose proof (round_nearest_even_bounds (shr_m mrs') (loc_of_shr_record mrs')
                ltac:(lia)) as Hr.
  destruct (shr_fexp_bounds (round_nearest_even (shr_m mrs') (loc_of_shr_record mrs'))
              e' loc_Exact ltac:(lia)) as [Hm2 _].
  destruct (shr_fexp _ _ _ e' loc_Exact) as [mrs'' e'']; simpl in Hm2.
  destruct (shr_m mrs'') as [|m|m]; [done| |lia].
  by destruct (e'' <=? emax - prec).
Qed.

Lemma Zdigits2_le m k : 0 ≤ k → 0 ≤ m < 2 ^ k → Zdigits2 m ≤ k.
Proof.
  intros Hk [Hm Hlt]. destruct m as [|p|p]; [simpl; lia| |lia]. simpl.
  clear Hm. revert k Hk Hlt. induction p as [p IH|p IH|]; intros k Hk Hlt; simpl.
  - assert (k ≠ 0) by (intros ->; simpl in Hlt; lia).
    specialize (IH (k - 1) ltac:(lia)).
    replace k with (Z.succ (k - 1)) in Hlt by lia.
    rewrite Z.pow_succ_r in Hlt by lia. lia.
  - assert (k ≠ 0) by (intros ->; simpl in Hlt; lia).
    specialize (IH (k - 1) ltac:(lia)).
    replace k with (Z.succ (k - 1)) in Hlt by lia.
    rewrite Z.pow_succ_r in Hlt by lia. lia.
  - assert (k ≠ 0) by (intros ->; simpl in Hlt; lia). lia.
Qed.

(** Rounding a mantissa below 2^116 with an exponent in -1074..0 stays
    finite. *)
Lemma binary_round_aux_finite sx mx ex lx :
  0 ≤ mx < 2 ^ 116 → -1074 ≤ ex ≤ 0 →
  binary_round_aux prec emax sx mx ex lx = S754_zero sx ∨
  ∃ m e, binary_round_aux prec emax sx mx ex lx = S754_finite sx m e.
Proof.
  intros [Hm Hlt] He. unfold binary_round_aux.
  destruct (shr_fexp_bounds mx ex lx Hm) as [Hm1 He1].
  pose proof (Zdigits2_le mx 116 ltac:(lia) ltac:(lia)) as Hd1.
  destruct (shr_fexp prec emax mx ex lx) as [mrs' e']; simpl in Hm1, He1.
  pose proof (round_nearest_even_bounds (shr_m mrs') (loc_of_shr_record mrs')
                ltac:(lia)) as Hr.
  set (m2 := round_nearest_even (shr_m mrs') (loc_of_shr_record mrs')) in *.
  destruct (shr_fexp_bounds m2 e' loc_Exact ltac:(lia)) as [Hm2 He2].
  assert (2 ^ 117 = 2 * 2 ^ 116) as Hpow by done.
  pose proof (Zdigits2_le m2 117 ltac:(lia) ltac:(lia)) as Hd2.
  destruct (shr_fexp prec emax m2 e' loc_Exact) as [mrs'' e'']; simpl in Hm2, He2.
  assert (e'' ≤ emax - prec) as Hle.
  { unfold fexp, emin, emax, prec in *. lia. }
  destruct (shr_m mrs'') as [|m|m]; [by left| |lia].
  right. exists m, e''. by rewrite (proj2 (Z.leb_le _ _) Hle).
Qed.

Lemma iter_xO_pow p k : Z.pos (Pos.iter xO p k) = Z.pos p * 2 ^ Z.pos k.
Proof.
  induction k as [|k IH] using Pos.peano_ind.
  - simpl. lia.
  - rewrite Pos.iter_succ, Pos2Z.inj_succ, Z.pow_succ_r by lia.
    rewrite Pos2Z.inj_xO, IH. lia.
Qed.

(** A non-negative integer below 2^63 converts to a finite number. *)
Lemma binary_normalize_finite z :
  0 ≤ z < 2 ^ 63 →
  binary_normalize prec emax z 0 false = S754_zero false ∨
  ∃ m e, binary_normalize prec emax z 0 false = S754_finite false m e.
Proof.
  intros [Hz Hlt]. destruct z as [|p|p]; [by left| |lia].
  unfold binary_normalize, binary_round.
  pose proof (Zdigits2_le (Z.pos p) 63 ltac:(lia) ltac:(lia)) as Hd.
  simpl in Hd.
  assert (1 ≤ Z.pos (digits2_pos p)) by lia.
  unfold shl_align.
  destruct (fexp prec emax (Z.pos (digits2_pos p) + 0) - 0) as [|d|d] eqn:Hf.
  - apply binary_round_aux_finite; lia.
  - apply binary_round_aux_finite; lia.
  - apply binary_round_aux_finite.
    + rewrite iter_xO_pow. unfold fexp, emin, emax, prec in Hf.
      assert (Z.pos d ≤ 52) by lia.
      assert (2 ^ Z.pos d ≤ 2 ^ 52) by (apply Z.pow_le_mono_r; lia).
      change (2 ^ 116) with (2 ^ 64 * 2 ^ 52). nia.
    + unfold fexp, emin, emax, prec in *. lia.
Qed.

End SpecFloatFacts.

Section NumberFacts.

Import Number.



(** A length converts to zero or to a positive finite number. *)
Lemma of_nat_finite n :
  Prim2SF (of_nat n) = S754_zero false ∨
  ∃ m e, Prim2SF (of_nat n) = S754_finite false m e.
Proof.
  unfold of_nat. rewrite of_uint63_spec. apply binary_normalize_finite.
  apply (Uint63.to_Z_bounded (Uint63.of_Z (Z.of_nat n))).
Qed.

(** What [0 < x] tells about [x]. *)
Lemma ltb_zero_positive x :
  (0 <? x)%float = true →
  Prim2SF x = S754_infinity false ∨ ∃ m e, Prim2SF x = S754_finite false m e.
Proof.
  rewrite FloatAxioms.ltb_spec. change (Prim2SF 0) with (S754_zero false).
  destruct (Prim2SF x) as [s|[]| |[] m e]; try done; eauto.
Qed.

Lemma not_nan_is_nan x : Prim2SF x ≠ S754_nan → is_nan x = false.
Proof.
  unfold is_nan. rewrite FloatAxioms.eqb_spec. unfold SFeqb, SFcompare.
  destruct (Prim2SF x) as [s|[]| |[] m e]; try done;
    by rewrite Z.compare_refl, Pos.compare_cont_refl.
Qed.




(** A non-negative finite number divided by a positive one is not NaN. *)
Lemma div_not_nan a b :
  (a = S754_zero false ∨ ∃ m e, a = S754_finite false m e) →
  (b = S754_infinity false ∨ ∃ m e, b = S754_finite false m e) →
  SF64div a b ≠ S754_nan.
Proof.
  intros [->|(ma & ea & ->)] [->|(mb & eb & ->)]; try done.
  unfold SF64div, SFdiv, SFdiv_core_binary.
  set (m' := match _ with Z.pos _ => _ | _ => _ end).
  assert (0 ≤ m')%Z as Hm'.
  { unfold m'. case_match; try lia. rewrite Z.shiftl_mul_pow2 by lia.
    apply Z.mul_nonneg_nonneg; [lia|]. apply Z.pow_nonneg. lia. }
  pose proof (Z.div_pos m' (Z.pos mb) Hm' ltac:(lia)) as Hq.
  unfold Z.div in Hq. destruct (Z.div_eucl m' (Z.pos mb)) as [q r].
  by apply binary_round_aux_not_nan.
Qed.


End NumberFacts.

Section RateFacts.

Import Number.

Variable days : list Day.
Variable habits : list Row.
Variable entries : list Row.





End RateFacts.




(** ** The day axis *)

(** C5 does not hold of the code.  At noon of 10 March 2024 in a browser on
    Indian time the loop runs over the seventy local midnights from
    1 January to 10 March, but every day is keyed by the UTC date of its
    local midnight, which is the day before: the axis starts at
    "2023-12-31" instead of 1 January 2024 and ends at "2024-03-09" instead
    of 10 March, while the day of month and the label of the same records
    say 1 and 10. *)
Theorem C5_axis_east_of_utc :
  ∃ days first final,
    getDaysFromStartOfYear SampleHosts.kolkata SampleHosts.noon_10_march_2024 400
      = Some days ∧
    length days = 70 ∧
    head days = Some first ∧ last days = Some final ∧
    date first = "2023-12-31" ∧ dayOfMonth first = 1%Z ∧
    monthIndex first = 0%Z ∧ label first = "Jan 1" ∧
    date final = "2024-03-09" ∧ dayOfMonth final = 10%Z ∧
    monthIndex final = 2%Z ∧ label final = "Mar 10".
Proof.
  destruct (getDaysFromStartOfYear SampleHosts.kolkata
              SampleHosts.noon_10_march_2024 400) as [days|] eqn:Hdays;
    vm_compute in Hdays; [|done].
  injection Hdays as <-. eexists _, _, _. split; [reflexivity|].
  repeat split.
Qed.

(** On UTC the same instant gives the axis from 1 January to 10 March. *)
Example axis_on_utc :
  (λ days, (length days, date <$> head days, date <$> last days)) <$>
    getDaysFromStartOfYear SampleHosts.utc SampleHosts.noon_10_march_2024 400
  = Some (70, Some "2024-01-01", Some "2024-03-10").
Proof. by vm_compute. Qed.

(** * Further properties of the dashboard *)

(** ** Cells, counters and the global streak *)

Lemma getHabitDayRatio_cases entries habit d :
  getHabitDayRatio entries habit d = 0 ∨ getHabitDayRatio entries habit d = 1.
Proof.
  unfold getHabitDayRatio. destruct (getEntry _ _ _) as [e|]; [|by left].
  destruct (truthy _); [by right|by left].
Qed.

(** A heatmap cell only ever takes the lightest or the darkest class: the
    darkest one exactly when the day is done for the habit, with the title
    "Done", and the class of an empty cell with "Not done" otherwise.  The
    three intermediate shades are never used by the grid. *)
Theorem cell_class_two_shades (entries : list Row) (habit : Row) (day : Day) :
  (done entries habit day = true ∧
   cell_class entries habit day = "bg-emerald-300" ∧
   cell_title entries habit day = "Done") ∨
  (done entries habit day = false ∧
   cell_class entries habit day = "bg-slate-100" ∧
   cell_title entries habit day = "Not done").
Proof.
  unfold cell_class, cell_title, done.
  destruct (getHabitDayRatio_cases entries habit (date day)) as [-> | ->];
    [right|left]; by vm_compute.
Qed.

Section SummaryFacts.

Variable days : list Day.
Variable entries : list Row.

Lemma selectedCompleted_fold selectedDate habits : ∀ acc,
  fold_left
    (λ acc habit,
       acc + (if 0 <? getHabitDayRatio entries habit selectedDate then 1 else 0))
    habits acc =
  acc + length (List.filter
                  (λ habit, 0 <? getHabitDayRatio entries habit selectedDate)
                  habits).
Proof.
  induction habits as [|h habits IH]; intros acc; simpl; [lia|].
  rewrite IH. destruct (0 <? getHabitDayRatio entries h selectedDate); simpl; lia.
Qed.

Lemma length_filter_bool {A} (q : A → bool) (l : list A) :
  length (List.filter q l) ≤ length l.
Proof. induction l as [|x l IH]; simpl; [done|]. destruct (q x); simpl; lia. Qed.

Lemma longestStreakGlobal_fold habits : ∀ m,
  fold_left
    (λ max h,
       let s := getHabitLongestStreak days entries h in
       if max <? s then s else max)
    habits m =
  Nat.max m (max_list (getHabitLongestStreak days entries <$> habits)).
Proof.
  induction habits as [|h habits IH]; intros m; [simpl; lia|].
  cbn [fold_left]. rewrite IH, fmap_cons.
  change (max_list (?x :: ?l)) with (Nat.max x (max_list l)).
  cbv zeta.
  destruct (Nat.ltb_spec m (getHabitLongestStreak days entries h)); lia.
Qed.

Lemma max_list_bound (ns : list nat) k : Forall (λ n, n ≤ k) ns → max_list ns ≤ k.
Proof. induction 1; simpl; lia. Qed.

Lemma max_list_snoc (ns : list nat) n :
  max_list (ns ++ [n]) = Nat.max (max_list ns) n.
Proof. induction ns as [|m ns IH]; simpl; [lia|]. rewrite IH. lia. Qed.

End SummaryFacts.

(** The "n/m habits done" counter: [selectedCompleted] is the number of
    habits whose cell reads done on the selected date, so it never exceeds
    the number of habits; the progress ratio is 0 when there is no habit
    and is never NaN. *)
Theorem selected_counter (habits entries : list Row) (selectedDate : string) :
  selectedCompleted habits entries selectedDate =
    length (List.filter
              (λ habit, 0 <? getHabitDayRatio entries habit selectedDate) habits) ∧
  selectedCompleted habits entries selectedDate ≤ length habits ∧
  (habits = [] → selectedRatio habits entries selectedDate = 0%float) ∧
  is_nan (selectedRatio habits entries selectedDate) = false.
Proof.
  assert (selectedCompleted habits entries selectedDate =
    length (List.filter
              (λ habit, 0 <? getHabitDayRatio entries habit selectedDate) habits))
    as Hcount.
  { unfold selectedCompleted. by rewrite selectedCompleted_fold. }
  split; [done|]. split; [rewrite Hcount; apply length_filter_bool|].
  split; [by intros ->|].
  apply not_nan_is_nan. unfold selectedRatio.
  destruct (0 <? totalHabits habits)%float eqn:Hguard; [|done].
  rewrite div_spec. apply div_not_nan.
  - apply of_nat_finite.
  - by apply ltb_zero_positive.
Qed.

(** With no habit the progress bar is empty. *)
Lemma selected_counter_witness :
  selectedRatio [] Sample.run_entries "2024-01-14" = 0%float.
Proof.
  apply (proj1 (proj2 (proj2
           (selected_counter [] Sample.run_entries "2024-01-14")))).
  reflexivity.
Defined.

(** "Longest streak (any habit)" is the largest of the habits' longest
    streaks: no habit exceeds it, it is at most the length of the axis,
    and it is the streak shown for the strongest habit (0 when there is
    no habit). *)
Theorem longest_streak_global (days : list Day) (habits entries : list Row) :
  longestStreakGlobal days habits entries =
    max_list (getHabitLongestStreak days entries <$> habits) ∧
  Forall (λ h, getHabitLongestStreak days entries h ≤
               longestStreakGlobal days habits entries) habits ∧
  longestStreakGlobal days habits entries ≤ length days ∧
  match bestHabit days habits entries with
  | Some best => streak best = longestStreakGlobal days habits entries
  | None => habits = [] ∧ longestStreakGlobal days habits entries = 0
  end.
Proof.
  assert (longestStreakGlobal days habits entries =
    max_list (getHabitLongestStreak days entries <$> habits)) as Hmax.
  { unfold longestStreakGlobal. rewrite longestStreakGlobal_fold. lia. }
  split; [done|]. rewrite Hmax. split; [|split].
  - apply Forall_forall. intros h Hh. apply max_list_elem_of_le.
    by apply list_elem_of_fmap_2.
  - apply max_list_bound, Forall_fmap, Forall_forall. intros h _.
    apply longest_le_length.
  - destruct habits as [|x rest]; [done|].
    unfold bestHabit. cbn [length Nat.ltb Nat.leb].
    destruct (sorted_head_first_max days entries (x :: rest) ltac:(done))
      as (pre & h & post & Hsplit & -> & Hpre & Hpost).
    cbn [streak]. apply Nat.le_antisymm.
    + apply max_list_elem_of_le, list_elem_of_fmap_2.
      rewrite Hsplit. apply elem_of_app. right. by left.
    + apply max_list_bound, Forall_fmap. rewrite Hsplit.
      apply Forall_app. split; [|apply Forall_cons; split].
      * eapply Forall_impl; [done|]. simpl. intros; lia.
      * simpl. lia.
      * eapply Forall_impl; [done|]. by simpl.
Qed.

(** ** Month blocks *)

Section MonthsFacts.

Implicit Types (groups : list (option Months.Group)) (g : Months.Group).

Lemma slot_insert groups i j g :
  i < length groups →
  Months.slot (<[i := Some g]> groups) j =
  if decide (j = i) then Some g else Months.slot groups j.
Proof.
  intros Hi. unfold Months.slot. case_decide as Hj.
  - subst. by rewrite list_lookup_insert_eq.
  - by rewrite list_lookup_insert_ne.
Qed.

Lemma slot_assign groups i j g :
  Months.slot (Months.assign groups i g) j =
  if decide (j = i) then Some g else Months.slot groups j.
Proof.
  unfold Months.assign. destruct (Nat.ltb_spec i (length groups)) as [Hi|Hi].
  { by apply slot_insert. }
  unfold Months.slot. case_decide as Hj.
  - subst. rewrite lookup_app_r by done.
    rewrite lookup_app_r by (rewrite length_replicate; lia).
    rewrite length_replicate, Nat.sub_diag. done.
  - destruct (decide (j < length groups)) as [Hlt|Hge].
    { by rewrite lookup_app_l. }
    rewrite (lookup_ge_None_2 groups j) by lia.
    rewrite lookup_app_r by lia.
    destruct (decide (j - length groups < i - length groups)) as [Hin|Hout].
    + rewrite lookup_app_l by (rewrite length_replicate; lia).
      by rewrite lookup_replicate_2.
    + rewrite lookup_ge_None_2; [done|].
      rewrite length_app, length_replicate. simpl. lia.
Qed.

Lemma slot_Some_lt groups i g : Months.slot groups i = Some g → i < length groups.
Proof.
  unfold Months.slot. destruct (groups !! i) eqn:Hi; [|done].
  intros _. by eapply lookup_lt_Some.
Qed.

(** What one day does to the array. *)
Lemma slot_step groups day j :
  Months.is_index (monthIndex day) = true →
  Months.slot (Months.step groups day) j =
  if decide (j = Z.to_nat (monthIndex day))
  then Some match Months.slot groups j with
            | Some g => {| Months.monthIndex := Months.monthIndex g;
                           Months.monthShort := Months.monthShort g;
                           Months.days := Months.days g ++ [day] |}
            | None => {| Months.monthIndex := monthIndex day;
                         Months.monthShort := monthShort day;
                         Months.days := [day] |}
            end
  else Months.slot groups j.
Proof.
  intros Hidx. unfold Months.step. rewrite Hidx. cbv zeta.
  set (i := Z.to_nat (monthIndex day)).
  destruct (Months.slot groups i) as [g|] eqn:Hslot.
  - pose proof (slot_Some_lt _ _ _ Hslot) as Hlt.
    assert (groups !! i = Some (Some g)) as Hg.
    { unfold Months.slot in Hslot.
      destruct (groups !! i) as [[g'|]|]; simpl in Hslot; by simplify_eq. }
    rewrite Hg. cbv beta iota. rewrite Hg. cbv beta iota.
    rewrite slot_insert by done.
    case_decide; [subst; by rewrite Hslot|done].
  - assert (match groups !! i with
            | Some (Some _) => groups
            | _ => Months.assign groups i
                     {| Months.monthIndex := monthIndex day;
                        Months.monthShort := monthShort day; Months.days := [] |}
            end = Months.assign groups i
                     {| Months.monthIndex := monthIndex day;
                        Months.monthShort := monthShort day; Months.days := [] |})
      as ->.
    { unfold Months.slot in Hslot.
      destruct (groups !! i) as [[g'|]|]; simpl in Hslot; by simplify_eq. }
    set (fresh := {| Months.monthIndex := monthIndex day;
                     Months.monthShort := monthShort day; Months.days := [] |}).
    pose proof (slot_assign groups i i fresh) as Hnew.
    rewrite decide_True in Hnew by done.
    assert (Months.assign groups i fresh !! i = Some (Some fresh)) as Hl.
    { unfold Months.slot in Hnew.
      destruct (Months.assign groups i fresh !! i) as [[g'|]|];
        simpl in Hnew; by simplify_eq. }
    rewrite Hl. cbv beta iota. rewrite slot_insert by by eapply lookup_lt_Some.
    case_decide as Hj; [subst; by rewrite Hslot|].
    rewrite slot_assign. by rewrite decide_False.
Qed.

End MonthsFacts.

Section MonthsInvariant.

Implicit Types (groups : list (option Months.Group)) (g : Months.Group).

Lemma in_month_snoc i seen day :
  Months.in_month i (seen ++ [day]) =
  Months.in_month i seen ++
    (if (monthIndex day =? Z.of_nat i)%Z then [day] else []).
Proof. unfold Months.in_month. rewrite List.filter_app. done. Qed.

Lemma is_index_nonneg m : Months.is_index m = true → (0 ≤ m)%Z.
Proof. unfold Months.is_index. intros [? _]%andb_true_iff. lia. Qed.

Lemma tracks_step seen groups day :
  Months.tracks seen groups → Months.is_index (monthIndex day) = true →
  Months.tracks (seen ++ [day]) (Months.step groups day).
Proof.
  intros Hinv Hidx i. pose proof (is_index_nonneg _ Hidx) as Hm.
  specialize (Hinv i). rewrite slot_step, in_month_snoc by done.
  case_decide as Hi.
  - assert ((monthIndex day =? Z.of_nat i)%Z = true) as -> by lia.
    destruct (Months.slot groups i) as [g|]; simpl.
    + destruct Hinv as (Hmi & Hdays & first & rest & Hfirst & Hshort).
      split; [done|]. split; [by rewrite Hdays|].
      exists first, (rest ++ [day]). by rewrite Hfirst.
    + rewrite Hinv. split; [lia|]. split; [done|]. by exists day, [].
  - assert ((monthIndex day =? Z.of_nat i)%Z = false) as -> by lia.
    rewrite app_nil_r. done.
Qed.

Lemma tracks_fold axis : ∀ seen groups,
  Months.tracks seen groups →
  Forall (λ d, Months.is_index (monthIndex d) = true) axis →
  Months.tracks (seen ++ axis) (fold_left Months.step axis groups).
Proof.
  induction axis as [|day axis IH]; intros seen groups Hinv Hall.
  - by rewrite app_nil_r.
  - apply Forall_cons in Hall as [Hday Hall]. cbn [fold_left].
    rewrite (cons_middle day seen axis), (assoc_L (++)).
    apply IH; [|done]. by apply tracks_step.
Qed.

Lemma tracks_all axis :
  Forall (λ d, Months.is_index (monthIndex d) = true) axis →
  Months.tracks axis (fold_left Months.step axis []).
Proof.
  intros Hall. apply (tracks_fold axis [] []); [|done]. by intros i.
Qed.

Lemma elem_of_months axis g :
  g ∈ Months.months axis ↔
  ∃ i, Months.slot (fold_left Months.step axis []) i = Some g.
Proof.
  unfold Months.months, Months.slot. rewrite list_elem_of_omap. split.
  - intros (x & Hx & Hg). apply list_elem_of_lookup in Hx as [i Hi].
    exists i. rewrite Hi. by destruct x; simplify_eq.
  - intros [i Hi]. destruct (fold_left Months.step axis [] !! i) as [x|] eqn:Hl;
      [|done].
    exists x. split; [by eapply list_elem_of_lookup_2|]. by destruct x.
Qed.

Lemma in_month_elem_of i axis d :
  d ∈ Months.in_month i axis ↔ d ∈ axis ∧ monthIndex d = Z.of_nat i.
Proof.
  unfold Months.in_month. rewrite elem_of_filter_bool. by rewrite Z.eqb_eq.
Qed.

(** The elements of a sparse array whose groups carry their own index come
    out of [filter] in strictly increasing index order. *)
Lemma omap_increasing groups : ∀ k,
  (∀ i g, groups !! i = Some (Some g) → Months.monthIndex g = Z.of_nat (k + i)) →
  StronglySorted (λ a b, (Months.monthIndex a < Months.monthIndex b)%Z)
    (omap id groups) ∧
  Forall (λ g, (Z.of_nat k ≤ Months.monthIndex g)%Z) (omap id groups).
Proof.
  induction groups as [|x groups IH]; intros k Hidx.
  - split; constructor.
  - destruct (IH (S k)) as [Hsorted Hall].
    { intros i g Hi. rewrite (Hidx (S i) g Hi). f_equal. lia. }
    destruct x as [g|]; simpl.
    + pose proof (Hidx 0 g eq_refl) as Hg. rewrite Nat.add_0_r in Hg.
      split.
      * constructor; [done|]. eapply Forall_impl; [done|]. simpl. intros; lia.
      * constructor; [lia|]. eapply Forall_impl; [done|]. simpl. intros; lia.
    + split; [done|]. eapply Forall_impl; [done|]. simpl. intros; lia.
Qed.

End MonthsInvariant.

Section MonthsOrder.

Implicit Types (groups : list (option Months.Group)) (g : Months.Group).

Lemma ascending_snoc seen day :
  Months.ascending (seen ++ [day]) →
  Months.ascending seen ∧ Forall (λ d, (monthIndex d ≤ monthIndex day)%Z) seen.
Proof.
  intros Hasc. split.
  - intros i j a b Hij Ha Hb. apply (Hasc i j); [done| |].
    + by apply lookup_app_l_Some.
    + by apply lookup_app_l_Some.
  - apply Forall_lookup. intros i d Hd. apply (Hasc i (length seen)).
    + by eapply lookup_lt_Some.
    + by apply lookup_app_l_Some.
    + by apply list_lookup_middle.
Qed.

Lemma omap_holes {A} n : omap id (replicate n (@None A)) = [].
Proof. induction n as [|n IH]; [done|]. by simpl. Qed.

(** On an ascending axis the array never has a trailing hole and the
    blocks, read in order, are the days seen so far. *)
Lemma months_concat_fold axis :
  Forall (λ d, Months.is_index (monthIndex d) = true) axis →
  Months.ascending axis →
  let groups := fold_left Months.step axis [] in
  concat (Months.days <$> omap id groups) = axis ∧
  (groups = [] ∨ ∃ init g, groups = init ++ [Some g]).
Proof.
  induction axis as [|day seen IH] using rev_ind; intros Hall Hasc.
  { split; [done|by left]. }
  apply Forall_app in Hall as [Hseen [Hidx _]%Forall_cons].
  apply ascending_snoc in Hasc as [Hasc Hle].
  destruct (IH Hseen Hasc) as [Hconcat Hlast]. clear IH.
  pose proof (tracks_all seen Hseen) as Htracks.
  pose proof (is_index_nonneg _ Hidx) as Hm.
  rewrite fold_left_app. cbn [fold_left].
  set (groups := fold_left Months.step seen []) in *.
  set (i := Z.to_nat (monthIndex day)).
  assert (∀ init g, groups = init ++ [Some g] → length init ≤ i) as Hbelow.
  { intros init g Hg. specialize (Htracks (length init)).
    unfold Months.slot in Htracks. rewrite Hg, list_lookup_middle in Htracks by done.
    simpl in Htracks. destruct Htracks as (_ & _ & first & rest & Hfirst & _).
    assert (first ∈ Months.in_month (length init) seen) as Hin.
    { rewrite Hfirst. by left. }
    apply in_month_elem_of in Hin as [Hin Hmonth].
    rewrite Forall_forall in Hle. specialize (Hle first Hin). lia. }
  destruct (decide (i < length groups)) as [Hlt|Hge].
  - destruct Hlast as [Hnil|(init & g & Hg)]; [rewrite Hnil in Hlt; simpl in Hlt; lia|].
    pose proof (Hbelow init g Hg) as Hinit.
    assert (i = length init) as Hi.
    { rewrite Hg, length_app in Hlt. simpl in Hlt. lia. }
    assert (groups !! i = Some (Some g)) as Hl.
    { rewrite Hg, Hi. by apply list_lookup_middle. }
    assert (Months.step groups day =
            init ++ [Some {| Months.monthIndex := Months.monthIndex g;
                             Months.monthShort := Months.monthShort g;
                             Months.days := Months.days g ++ [day] |}]) as ->.
    { unfold Months.step. rewrite Hidx. cbv zeta. fold i.
      rewrite Hl. cbv beta iota. rewrite Hl. cbv beta iota.
      rewrite Hg, Hi. by rewrite insert_app_r_alt, Nat.sub_diag by done. }
    split; [|right; eauto].
    rewrite omap_app, fmap_app, concat_app. simpl.
    rewrite Hg, omap_app, fmap_app, concat_app in Hconcat. simpl in Hconcat.
    rewrite app_nil_r in *. by rewrite <- Hconcat, (assoc_L (++)).
  - set (holes := replicate (i - length groups) (@None Months.Group)).
    assert (length (groups ++ holes) = i) as Hlen.
    { unfold holes. rewrite length_app, length_replicate. lia. }
    assert (Months.step groups day =
            (groups ++ holes) ++
              [Some {| Months.monthIndex := monthIndex day;
                       Months.monthShort := monthShort day;
                       Months.days := [day] |}]) as ->.
    { unfold Months.step. rewrite Hidx. cbv zeta. fold i.
      rewrite (lookup_ge_None_2 groups i) by lia. cbv beta iota.
      unfold Months.assign.
      destruct (Nat.ltb_spec i (length groups)) as [?|_]; [lia|].
      fold holes. rewrite (assoc_L (++) groups holes).
      rewrite <- Hlen at 1. rewrite list_lookup_middle by done. cbv beta iota.
      rewrite <- Hlen at 1. by rewrite insert_app_r_alt, Nat.sub_diag by done. }
    split; [|right; eauto].
    rewrite !omap_app, !fmap_app, !concat_app. simpl.
    unfold holes. rewrite omap_holes. simpl. by rewrite Hconcat, !app_nil_r.
Qed.

End MonthsOrder.

(** The month blocks of the grid.  Every block holds exactly the axis days
    of its month, in axis order, is never empty and carries the short name
    of its first day; every day of the axis lies in the block of its
    month; the blocks come in strictly increasing month order; and on an
    axis whose months never decrease, the blocks read one after the other
    are the axis itself. *)
Theorem months_blocks (axis : list Day) :
  Forall (λ d, Months.is_index (monthIndex d) = true) axis →
  Forall (λ g,
            Months.days g =
              List.filter (λ d, (monthIndex d =? Months.monthIndex g)%Z) axis ∧
            ∃ first rest, Months.days g = first :: rest ∧
                          Months.monthShort g = monthShort first)
         (Months.months axis) ∧
  (∀ d, d ∈ axis →
        ∃ g, g ∈ Months.months axis ∧ Months.monthIndex g = monthIndex d ∧
             d ∈ Months.days g) ∧
  StronglySorted (λ a b, (Months.monthIndex a < Months.monthIndex b)%Z)
    (Months.months axis) ∧
  (Months.ascending axis → concat (Months.days <$> Months.months axis) = axis).
Proof.
  intros Hall. pose proof (tracks_all axis Hall) as Htracks.
  split; [|split; [|split]].
  - apply Forall_forall. intros g [i Hi]%elem_of_months.
    specialize (Htracks i). rewrite Hi in Htracks.
    destruct Htracks as (Hm & Hdays & first & rest & Hfirst & Hshort).
    split.
    + rewrite Hdays, Hm. done.
    + exists first, rest. by rewrite Hdays.
  - intros d Hd. rewrite Forall_forall in Hall.
    pose proof (is_index_nonneg _ (Hall d Hd)) as Hm.
    pose proof (Htracks (Z.to_nat (monthIndex d))) as Ht.
    assert (d ∈ Months.in_month (Z.to_nat (monthIndex d)) axis) as Hin.
    { apply in_month_elem_of. split; [done|lia]. }
    destruct (Months.slot _ _) as [g|] eqn:Hslot.
    + destruct Ht as (Hmi & Hdays & _). exists g.
      split; [apply elem_of_months; eauto|]. split; [lia|]. by rewrite Hdays.
    + rewrite Ht in Hin. by apply elem_of_nil in Hin.
  - apply (omap_increasing _ 0). intros i g Hi.
    specialize (Htracks i). unfold Months.slot in Htracks. rewrite Hi in Htracks.
    by destruct Htracks as [-> _].
  - intros Hasc. by apply months_concat_fold.
Qed.

(** The blocks of a sample axis with two days of January and one of March:
    a January block and a March block. *)
Lemma months_blocks_witness :
  concat (Months.days <$> Months.months SampleMonths.axis) = SampleMonths.axis ∧
  Months.monthShort <$> Months.months SampleMonths.axis = ["Jan"; "Mar"].
Proof.
  split; [|by vm_compute].
  apply (months_blocks SampleMonths.axis).
  - repeat constructor.
  - intros i j a b Hij Ha Hb.
    destruct i as [|[|[|i]]]; destruct j as [|[|[|j]]]; simpl in *;
      simplify_eq; simpl; lia.
Defined.

(** ** Reading the store after a write *)

Section StoreFrame.

Import Dashboard.

Lemma find_insert_other {A} (p : A → bool) (l : list A) i x y :
  l !! i = Some x → p x = false → p y = false →
  List.find p (<[i := y]> l) = List.find p l.
Proof.
  revert i. induction l as [|a l IH]; intros i Hi Hx Hy; [done|].
  destruct i as [|i]; simpl in *.
  - simplify_eq. by rewrite Hx, Hy.
  - destruct (p a); [done|]. by eapply IH.
Qed.

Lemma find_snoc_other {A} (p : A → bool) (l : list A) y :
  p y = false → List.find p (l ++ [y]) = List.find p l.
Proof.
  intros Hy. induction l as [|a l IH]; simpl; [by rewrite Hy|].
  by destruct (p a).
Qed.

Lemma getEntry_upsert_same habitId d data prev :
  entry_key data = (habitId, Str d) →
  getEntry (upsert_local habitId d data prev) habitId d =
  Some (spread (default ∅ (getEntry prev habitId d)) data).
Proof.
  intros Hkey. unfold getEntry. rewrite !find_findIndex.
  destruct (findIndex (entry_matches habitId d) prev) as [idx|] eqn:Hidx.
  - destruct (findIndex_first _ _ _ Hidx) as (old & Hold & Hm & Hbefore).
    assert (idx < length prev) by by eapply lookup_lt_Some.
    rewrite (upsert_local_found _ _ _ _ _ _ Hidx Hold). simpl. rewrite Hold. simpl.
    rewrite (findIndex_is_first _ _ idx (spread old data)).
    + simpl. by rewrite list_lookup_insert_eq.
    + by rewrite list_lookup_insert_eq.
    + apply entry_matches_key, spread_keeps_key; [|done]. by apply entry_matches_key.
    + intros j y Hj Hy. rewrite list_lookup_insert_ne in Hy by lia.
      by eapply Hbefore.
  - rewrite (upsert_local_fresh _ _ _ _ Hidx). simpl. rewrite spread_empty.
    apply findIndex_None in Hidx.
    rewrite (findIndex_is_first _ _ (length prev) data).
    + simpl. by rewrite list_lookup_middle.
    + by apply list_lookup_middle.
    + by apply entry_matches_key.
    + intros j y Hj Hy. rewrite lookup_app_l in Hy by done.
      rewrite Forall_lookup in Hidx. by eapply Hidx.
Qed.

Lemma getEntry_upsert_other habitId d data prev habitId' d' :
  entry_key data = (habitId, Str d) → (habitId', d') ≠ (habitId, d) →
  getEntry (upsert_local habitId d data prev) habitId' d' =
  getEntry prev habitId' d'.
Proof.
  intros Hkey Hne. unfold getEntry.
  assert (∀ e, entry_key e = (habitId, Str d) → entry_matches habitId' d' e = false)
    as Hmiss.
  { intros e He. apply entry_matches_false_key. rewrite He. congruence. }
  destruct (findIndex (entry_matches habitId d) prev) as [idx|] eqn:Hidx.
  - destruct (findIndex_first _ _ _ Hidx) as (old & Hold & Hm & _).
    apply entry_matches_key in Hm.
    rewrite (upsert_local_found _ _ _ _ _ _ Hidx Hold).
    apply (find_insert_other _ _ _ old); [done|by apply Hmiss|].
    by apply Hmiss, spread_keeps_key.
  - rewrite (upsert_local_fresh _ _ _ _ Hidx).
    apply find_snoc_other. by apply Hmiss.
Qed.

Lemma upsert_local_length habitId d data prev :
  length (upsert_local habitId d data prev) =
  match getEntry prev habitId d with
  | Some _ => length prev
  | None => S (length prev)
  end.
Proof.
  unfold getEntry. rewrite find_findIndex. unfold upsert_local.
  destruct (findIndex (entry_matches habitId d) prev) as [idx|] eqn:Hidx; simpl.
  - destruct (findIndex_first _ _ _ Hidx) as (old & -> & _).
    by rewrite length_insert.
  - rewrite length_app. simpl. lia.
Qed.

End StoreFrame.

(** Upsert then lookup.  After the local store has merged the confirmed
    row of an upsert for ([habitId], [d]), the lookup of that key returns
    the row merged over the entry that was there (the row itself when
    there was none), the lookup of every other key returns what it
    returned before, and the store has grown by one entry exactly when the
    key was absent. *)
Theorem upsert_then_lookup (prev : list Row) (habitId : Value) (d : string)
    (data : Row) :
  get data "habit_id" = habitId → get data "date" = Str d →
  getEntry (Dashboard.upsert_local habitId d data prev) habitId d =
    Some (spread (default ∅ (getEntry prev habitId d)) data) ∧
  (∀ habitId' d', (habitId', d') ≠ (habitId, d) →
     getEntry (Dashboard.upsert_local habitId d data prev) habitId' d' =
     getEntry prev habitId' d') ∧
  length (Dashboard.upsert_local habitId d data prev) =
    match getEntry prev habitId d with
    | Some _ => length prev
    | None => S (length prev)
    end.
Proof.
  intros Hh Hd.
  assert (entry_key data = (habitId, Str d)) as Hkey.
  { unfold entry_key. by rewrite Hh, Hd. }
  split; [by apply getEntry_upsert_same|]. split.
  - intros habitId' d' Hne. by apply getEntry_upsert_other.
  - apply upsert_local_length.
Qed.

(** On the sample store: 4 January had no entry for habit 1, so the store
    grows from eleven to twelve entries. *)
Lemma upsert_then_lookup_witness :
  length (Dashboard.upsert_local (Num 1) "2024-01-04"
            (Sample.entry 1 "2024-01-04" true) Sample.run_entries) = 12.
Proof.
  exact (proj2 (proj2 (upsert_then_lookup Sample.run_entries (Num 1) "2024-01-04"
                         (Sample.entry 1 "2024-01-04" true) eq_refl eq_refl))).
Defined.

(** ** Streaks under changes of the store *)

Section StreakChange.

Variable days : list Day.
Variable habit : Row.

(** An all-done suffix of the axis is counted in full by the backward
    scan. *)
Lemma streak_covers entries pre suf :
  days = pre ++ suf → Forall (λ day, done entries habit day = true) suf →
  length suf ≤ getHabitStreak days entries habit.
Proof.
  intros Hdays Hsuf.
  destruct (streak_stops days entries habit)
    as (j & Hj & -> & _ & [->|(j' & day & -> & Hday & Hd)]); [rewrite Hdays, length_app; lia|].
  destruct (decide (length suf ≤ length days - S j')) as [|Hgt]; [done|].
  exfalso. rewrite Hdays in Hday. rewrite Hdays, length_app in Hgt, Hj.
  rewrite lookup_app_r in Hday by lia.
  rewrite Forall_lookup in Hsuf. by rewrite (Hsuf _ _ Hday) in Hd.
Qed.

Lemma streaks_monotone entries entries' :
  Forall (λ day, done entries habit day = true → done entries' habit day = true)
         days →
  getHabitStreak days entries habit ≤ getHabitStreak days entries' habit ∧
  getHabitLongestStreak days entries habit ≤
    getHabitLongestStreak days entries' habit.
Proof.
  intros Himp. split.
  - destruct (streak_suffix days entries habit) as (pre & suf & Hdays & -> & Hall & _).
    apply (streak_covers entries' pre suf Hdays).
    rewrite Hdays in Himp. apply Forall_app in Himp as [_ Himp].
    rewrite Forall_forall in Himp, Hall. apply Forall_forall. auto.
  - destruct (longest_attained entries habit days) as (a & seg & b & Hdays & Hall & ->).
    apply (longest_covers entries' habit days a seg b Hdays).
    rewrite Hdays in Himp. apply Forall_app in Himp as [_ Himp].
    apply Forall_app in Himp as [Himp _].
    rewrite Forall_forall in Himp, Hall. apply Forall_forall. auto.
Qed.

Lemma streaks_same_lookups entries entries' :
  (∀ d, getEntry entries' (get habit "id") d = getEntry entries (get habit "id") d) →
  getHabitStreak days entries' habit = getHabitStreak days entries habit ∧
  getHabitLongestStreak days entries' habit =
    getHabitLongestStreak days entries habit.
Proof.
  intros Hsame.
  assert (∀ day, done entries' habit day = done entries habit day) as Hdone.
  { intros day. unfold done, getHabitDayRatio. by rewrite Hsame. }
  destruct (streaks_monotone entries entries') as [? ?].
  { apply Forall_forall. intros day _. by rewrite Hdone. }
  destruct (streaks_monotone entries' entries) as [? ?].
  { apply Forall_forall. intros day _. by rewrite Hdone. }
  lia.
Qed.

Lemma longest_zero entries :
  getHabitLongestStreak days entries habit = 0 ↔
  Forall (λ day, done entries habit day = false) days.
Proof.
  split.
  - intros Hzero. apply Forall_lookup. intros i day Hday.
    destruct (done entries habit day) eqn:Hd; [|done]. exfalso.
    pose proof (longest_covers entries habit days (take i days) [day]
                  (drop (S i) days)) as Hcover.
    rewrite Hzero in Hcover. simpl in Hcover.
    assert (1 ≤ 0); [|lia]. apply Hcover.
    + rewrite <- (take_drop_middle days i day Hday) at 1. done.
    + by apply Forall_singleton.
  - intros Hnone.
    destruct (longest_attained entries habit days) as (a & seg & b & Hdays & Hall & ->).
    destruct seg as [|day seg]; [done|]. exfalso.
    apply Forall_cons in Hall as [Hd _].
    rewrite Hdays in Hnone. apply Forall_app in Hnone as [_ Hnone].
    apply Forall_app in Hnone as [Hnone _].
    apply Forall_cons in Hnone as [Hd' _]. congruence.
Qed.

Lemma longest_full entries :
  getHabitLongestStreak days entries habit = length days ↔
  Forall (λ day, done entries habit day = true) days.
Proof.
  split.
  - intros Hfull.
    destruct (longest_attained entries habit days) as (a & seg & b & Hdays & Hall & Hl).
    rewrite Hfull in Hl. rewrite Hdays, !length_app in Hl.
    destruct a; [|simpl in Hl; lia]. destruct b; [|simpl in Hl; lia].
    by rewrite Hdays, app_nil_r.
  - intros Hall. apply Nat.le_antisymm; [apply longest_le_length|].
    apply (longest_covers entries habit days [] days []); [|done].
    by rewrite app_nil_r.
Qed.

End StreakChange.

(** Streaks are monotone in the done days: when every axis day that is
    done for the habit in one store is also done in another, neither the
    current nor the longest streak is smaller in the other store.  Marking
    more days never shortens a streak. *)
Theorem streaks_grow_with_done_days (days : list Day) (habit : Row)
    (entries entries' : list Row) :
  Forall (λ day, entry_true entries habit day → entry_true entries' habit day)
         days →
  getHabitStreak days entries habit ≤ getHabitStreak days entries' habit ∧
  getHabitLongestStreak days entries habit ≤
    getHabitLongestStreak days entries' habit.
Proof.
  intros Himp. apply streaks_monotone.
  eapply Forall_impl; [done|]. intros day Hday. rewrite !done_entry_true. done.
Qed.

(** Marking the missed 4 January done in the sample store does not shorten
    the streaks of habit 1. *)
Lemma streaks_grow_with_done_days_witness :
  getHabitLongestStreak Sample.two_weeks Sample.run_entries Sample.run_habit ≤
  getHabitLongestStreak Sample.two_weeks
    (Sample.run_entries ++ [Sample.entry 1 "2024-01-04" true]) Sample.run_habit.
Proof.
  refine (proj2 (streaks_grow_with_done_days Sample.two_weeks Sample.run_habit
                   Sample.run_entries
                   (Sample.run_entries ++ [Sample.entry 1 "2024-01-04" true]) _)).
  repeat constructor; rewrite <- !done_entry_true; by vm_compute.
Defined.

(** The longest streak is 0 exactly when no axis day is done for the
    habit, and it is the length of the axis exactly when every axis day is
    done. *)
Theorem longest_streak_extremes (days : list Day) (entries : list Row) (habit : Row) :
  (getHabitLongestStreak days entries habit = 0 ↔
   Forall (λ day, ¬ entry_true entries habit day) days) ∧
  (getHabitLongestStreak days entries habit = length days ↔
   Forall (entry_true entries habit) days).
Proof.
  split.
  - rewrite longest_zero. apply Forall_proper; [|done]. intros day.
    rewrite <- done_entry_true. by destruct (done entries habit day).
  - rewrite longest_full. apply Forall_proper; [|done]. intros day.
    apply done_entry_true.
Qed.

(** With an empty store no day of the sample fortnight is done. *)
Lemma longest_streak_extremes_witness :
  Forall (λ day, ¬ entry_true [] Sample.run_habit day) Sample.two_weeks.
Proof.
  apply (proj1 (proj1
           (longest_streak_extremes Sample.two_weeks [] Sample.run_habit))).
  vm_compute. reflexivity.
Defined.

(** A confirmed write or a confirmed deletion for one habit leaves the
    current and the longest streak of every other habit as they were. *)
Theorem other_habits_keep_streaks (user : option Row) (s : Dashboard.State)
    (i : nat) (days : list Day) (habit : Row) :
  (∀ id, Dashboard.inflight s !! i = Some (Dashboard.AwaitDelete id) →
     id ≠ get habit "id" →
     let s' := Dashboard.step user
                 (Dashboard.DeleteReply i (Dashboard.Returned ())) s in
     getHabitStreak days (Dashboard.entries s') habit =
       getHabitStreak days (Dashboard.entries s) habit ∧
     getHabitLongestStreak days (Dashboard.entries s') habit =
       getHabitLongestStreak days (Dashboard.entries s) habit) ∧
  (∀ habitId d request data,
     Dashboard.inflight s !! i = Some (Dashboard.AwaitUpsert habitId d request) →
     habitId ≠ get habit "id" →
     get data "habit_id" = habitId → get data "date" = Str d →
     let s' := Dashboard.step user
                 (Dashboard.UpsertReply i (Dashboard.Returned data)) s in
     getHabitStreak days (Dashboard.entries s') habit =
       getHabitStreak days (Dashboard.entries s) habit ∧
     getHabitLongestStreak days (Dashboard.entries s') habit =
       getHabitLongestStreak days (Dashboard.entries s) habit).
Proof.
  split.
  - intros id Hi Hne s'. apply streaks_same_lookups. intros d.
    destruct (delete_reply_state user s i id Hi) as [He _]. fold s' in He.
    unfold getEntry. rewrite He. apply find_filter.
    intros e [= Hm _]%entry_matches_key. apply strict_eq_false. by rewrite Hm.
  - intros habitId d request data Hi Hne Hh Hd s'. apply streaks_same_lookups.
    intros d'. unfold s'. simpl. rewrite Hi. simpl.
    apply getEntry_upsert_other.
    + unfold entry_key. by rewrite Hh, Hd.
    + congruence.
Qed.

(** In the sample session the deletion of habit 1 is in flight; once it is
    confirmed, habit 2 has the streaks it had. *)
Lemma other_habits_keep_streaks_witness :
  getHabitLongestStreak Sample.two_weeks
    (Dashboard.entries
       (Dashboard.step (Some Sample.user)
          (Dashboard.DeleteReply 0 (Dashboard.Returned ())) SampleSession.deleting))
    Sample.read_habit =
  getHabitLongestStreak Sample.two_weeks
    (Dashboard.entries SampleSession.deleting) Sample.read_habit.
Proof.
  refine (proj2 (proj1 (other_habits_keep_streaks (Some Sample.user)
                          SampleSession.deleting 0 Sample.two_weeks
                          Sample.read_habit) (Num 1) eq_refl _)).
  by vm_compute.
Defined.

(** ** Who changes what *)

(** The user's actions (press, enter, release, toggle, delete) and the
    mount never change the habit list, the store or the console: only
    replies do.  Replies in turn never change the selected date or the
    drag state, so a confirmation that arrives in the middle of a gesture
    does not disturb it.  Without a signed-in user no action puts a
    request in flight. *)
Theorem events_touch_disjoint_state (user : option Row) (ev : Dashboard.Event)
    (s : Dashboard.State) :
  (is_reply ev = false →
     Dashboard.habits (Dashboard.step user ev s) = Dashboard.habits s ∧
     Dashboard.entries (Dashboard.step user ev s) = Dashboard.entries s ∧
     Dashboard.console (Dashboard.step user ev s) = Dashboard.console s) ∧
  (is_reply ev = true →
     Dashboard.selectedDate (Dashboard.step user ev s) = Dashboard.selectedDate s ∧
     Dashboard.isDragging (Dashboard.step user ev s) = Dashboard.isDragging s ∧
     Dashboard.dragValue (Dashboard.step user ev s) = Dashboard.dragValue s) ∧
  (is_reply ev = false →
     Dashboard.inflight (Dashboard.step None ev s) = Dashboard.inflight s).
Proof.
  split; [|split].
  - intros Hev. destruct ev; try done; simpl;
      unfold Dashboard.fetchData, Dashboard.onMouseDown, Dashboard.onMouseEnter,
        Dashboard.onClickToggle, Dashboard.handleDeleteHabit, Dashboard.updateEntry;
      repeat case_match; done.
  - intros Hev. destruct ev as [| | | | | |i r|i r|i r|i r]; try done; simpl;
      destruct (Dashboard.inflight s !! i) as [[]|]; try done; by destruct r.
  - intros Hev. destruct ev; try done; simpl;
      unfold Dashboard.onMouseEnter; repeat case_match; done.
Qed.

(** The press of the sample session leaves the loaded store as it is. *)
Lemma events_touch_disjoint_state_witness :
  Dashboard.entries
    (Dashboard.step (Some Sample.user)
       (Dashboard.MouseDown Sample.run_habit (Sample.day "2024-01-04"))
       SampleSession.loaded) =
  Dashboard.entries SampleSession.loaded.
Proof.
  exact (proj1 (proj2 (proj1 (events_touch_disjoint_state (Some Sample.user)
           (Dashboard.MouseDown Sample.run_habit (Sample.day "2024-01-04"))
           SampleSession.loaded) eq_refl))).
Defined.

(** ** Loading *)

(** How a load ends.  When the habit query fails, the error is logged and
    the habit list and the store stay as they were.  When the entry query
    fails, the habit list is replaced by the fetched one ([[]] for [null])
    and the store stays as it was.  When both succeed, both are replaced.
    In all three cases [loading] ends up false, and a load starts only for
    a signed-in user and sets [loading]. *)
Theorem load_outcomes (user : option Row) (s : Dashboard.State) (i : nat) :
  (Dashboard.inflight s !! i = Some Dashboard.AwaitHabits →
   ∀ error,
     let s' := Dashboard.step user (Dashboard.HabitsReply i (Dashboard.Failed error)) s in
     Dashboard.loading s' = false ∧
     Dashboard.habits s' = Dashboard.habits s ∧
     Dashboard.entries s' = Dashboard.entries s ∧
     Dashboard.console s' =
       Dashboard.console s ++ [("Error fetching habits:", error)] ∧
     Dashboard.inflight s' = delete i (Dashboard.inflight s)) ∧
  (∀ habitsData,
     Dashboard.inflight s !! i = Some (Dashboard.AwaitEntries habitsData) →
     (∀ error,
        let s' := Dashboard.step user
                    (Dashboard.EntriesReply i (Dashboard.Failed error)) s in
        Dashboard.loading s' = false ∧
        Dashboard.habits s' = default [] habitsData ∧
        Dashboard.entries s' = Dashboard.entries s) ∧
     (∀ entriesData,
        let s' := Dashboard.step user
                    (Dashboard.EntriesReply i (Dashboard.Returned entriesData)) s in
        Dashboard.loading s' = false ∧
        Dashboard.habits s' = default [] habitsData ∧
        Dashboard.entries s' = default [] entriesData)) ∧
  (∀ u, let s' := Dashboard.step (Some u) Dashboard.Mount s in
        Dashboard.loading s' = true ∧
        Dashboard.inflight s' = Dashboard.inflight s ++ [Dashboard.AwaitHabits]) ∧
  Dashboard.step None Dashboard.Mount s = s.
Proof.
  split; [|split; [|split]].
  - intros Hi error. simpl. by rewrite Hi.
  - intros habitsData Hi. split.
    + intros error. simpl. by rewrite Hi.
    + intros entriesData. simpl. by rewrite Hi.
  - done.
  - done.
Qed.

(** The load of the sample session installs the fetched habit and the
    fetched entries and ends with [loading] false. *)
Lemma load_outcomes_witness :
  Dashboard.loading SampleSession.loaded = false ∧
  Dashboard.entries SampleSession.loaded = Sample.run_entries.
Proof.
  pose (s := Dashboard.run (Some Sample.user) (take 2 SampleSession.events)
               (Dashboard.initial "2024-01-14")).
  destruct (proj2 (proj1 (proj2 (load_outcomes (Some Sample.user) s 0))
                     (Some [Sample.run_habit]) eq_refl)
              (Some Sample.run_entries)) as (Hload & _ & Hentries).
  split; [exact Hload|exact Hentries].
Defined.

(** ** Creating a habit *)

(** The "Add habit" form.  Nothing is sent, and nothing changes, when no
    user is signed in or the name is blank after trimming; otherwise one
    insert carrying the trimmed name is put in flight and the form and the
    dashboard stay as they are.  When the insert is confirmed the returned
    habit is appended after the existing habits, which keep their
    positions, the store is untouched and the name field is cleared; when
    it fails the error is logged, the habit list is unchanged and the
    typed name is kept. *)
Theorem create_habit (trim : string → string) (user : option Row)
    (s : Creation.Session) :
  (user = None ∨ trim (Creation.name (Creation.newHabit s)) = "" →
     Creation.handleCreateHabit trim user s = s) ∧
  (∀ u, user = Some u → trim (Creation.name (Creation.newHabit s)) ≠ "" →
     let s' := Creation.handleCreateHabit trim user s in
     Creation.inserts s' =
       Creation.inserts s ++
         [Creation.insert_request u (trim (Creation.name (Creation.newHabit s)))] ∧
     Creation.dashboard s' = Creation.dashboard s ∧
     Creation.newHabit s' = Creation.newHabit s) ∧
  (∀ i request, Creation.inserts s !! i = Some request →
     (∀ data,
        let s' := Creation.insert_reply i (Dashboard.Returned data) s in
        Dashboard.habits (Creation.dashboard s') =
          Dashboard.habits (Creation.dashboard s) ++ [data] ∧
        Dashboard.entries (Creation.dashboard s') =
          Dashboard.entries (Creation.dashboard s) ∧
        Creation.name (Creation.newHabit s') = "" ∧
        Creation.inserts s' = delete i (Creation.inserts s)) ∧
     (∀ error,
        let s' := Creation.insert_reply i (Dashboard.Failed error) s in
        Dashboard.habits (Creation.dashboard s') =
          Dashboard.habits (Creation.dashboard s) ∧
        Creation.newHabit s' = Creation.newHabit s ∧
        Dashboard.console (Creation.dashboard s') =
          Dashboard.console (Creation.dashboard s) ++
            [("Error creating habit:", error)] ∧
        Creation.inserts s' = delete i (Creation.inserts s))).
Proof.
  split; [|split].
  - unfold Creation.handleCreateHabit. intros [-> | ->]; [done|].
    destruct user; [|done]. by destruct s.
  - intros u -> Hname s'. unfold s', Creation.handleCreateHabit.
    destruct (trim (Creation.name (Creation.newHabit s))) eqn:Ht; [done|].
    done.
  - intros i request Hi. unfold Creation.insert_reply. rewrite Hi. by split.
Qed.

(** With "  Stretch " typed, the submit sends the name "Stretch". *)
Lemma create_habit_witness :
  Creation.inserts
    (Creation.handleCreateHabit SampleForms.trim (Some Sample.user)
       SampleForms.typed) =
  [Creation.insert_request Sample.user "Stretch"].
Proof.
  refine (proj1 (proj1 (proj2 (create_habit SampleForms.trim (Some Sample.user)
                                 SampleForms.typed)) Sample.user eq_refl _)).
  by vm_compute.
Defined.

Section NewHabitRanking.

Variable days : list Day.
Variable entries : list Row.

Abbreviation rank := (getHabitLongestStreak days entries).

(** A list has only one "first maximum". *)
Lemma first_max_unique (pre pre' post post' : list Row) (h h' : Row) :
  pre ++ h :: post = pre' ++ h' :: post' →
  Forall (λ p, rank p < rank h) pre → Forall (λ q, rank q ≤ rank h) post →
  Forall (λ p, rank p < rank h') pre' → Forall (λ q, rank q ≤ rank h') post' →
  pre = pre' ∧ h = h'.
Proof.
  intros Heq Hpre Hpost Hpre' Hpost'.
  assert (length pre = length pre') as Hlen.
  { destruct (Nat.lt_trichotomy (length pre) (length pre')) as [Hlt|[?|Hlt]];
      [exfalso|done|exfalso].
    - assert ((pre' ++ h' :: post') !! length pre = Some h) as Hh.
      { rewrite <- Heq. by apply list_lookup_middle. }
      rewrite lookup_app_l in Hh by done.
      rewrite Forall_lookup in Hpre'. pose proof (Hpre' _ _ Hh) as H1.
      assert ((pre ++ h :: post) !! length pre' = Some h') as Hh'.
      { rewrite Heq. by apply list_lookup_middle. }
      rewrite lookup_app_r in Hh' by lia.
      destruct (length pre' - length pre) as [|k] eqn:Hk; [lia|]. simpl in Hh'.
      rewrite Forall_lookup in Hpost. pose proof (Hpost _ _ Hh') as H2.
      simpl in *. lia.
    - assert ((pre ++ h :: post) !! length pre' = Some h') as Hh'.
      { rewrite Heq. by apply list_lookup_middle. }
      rewrite lookup_app_l in Hh' by done.
      rewrite Forall_lookup in Hpre. pose proof (Hpre _ _ Hh') as H1.
      assert ((pre' ++ h' :: post') !! length pre = Some h) as Hh.
      { rewrite <- Heq. by apply list_lookup_middle. }
      rewrite lookup_app_r in Hh by lia.
      destruct (length pre - length pre') as [|k] eqn:Hk; [lia|]. simpl in Hh.
      rewrite Forall_lookup in Hpost'. pose proof (Hpost' _ _ Hh) as H2.
      simpl in *. lia. }
  apply app_inj_1 in Heq as [-> Heq]; [|done]. by simplify_eq.
Qed.

Lemma bestHabit_snoc habits data :
  habits ≠ [] →
  (∃ h, h ∈ habits ∧ rank data ≤ rank h) →
  bestHabit days (habits ++ [data]) entries = bestHabit days habits entries.
Proof.
  intros Hne (h0 & Hh0 & Hle0).
  unfold bestHabit.
  destruct habits as [|x rest]; [done|]. cbn [app length Nat.ltb Nat.leb].
  destruct (sorted_head_first_max days entries (x :: rest) ltac:(done))
    as (pre & h & post & Hsplit & -> & Hpre & Hpost).
  destruct (sorted_head_first_max days entries (x :: rest ++ [data]) ltac:(done))
    as (pre' & h' & post' & Hsplit' & -> & Hpre' & Hpost').
  assert (rank data ≤ rank h) as Hdata.
  { rewrite Hsplit in Hh0. apply elem_of_app in Hh0 as [Hin|Hin].
    - rewrite Forall_forall in Hpre. specialize (Hpre _ Hin). simpl in Hpre. lia.
    - apply elem_of_cons in Hin as [->|Hin]; [done|].
      rewrite Forall_forall in Hpost. specialize (Hpost _ Hin). simpl in Hpost. lia. }
  destruct (first_max_unique pre pre' (post ++ [data]) post' h h') as [_ <-];
    try done.
  - rewrite <- Hsplit'. change (x :: rest ++ [data]) with ((x :: rest) ++ [data]).
    rewrite Hsplit. by rewrite <- (assoc_L (++)).
  - apply Forall_app. split; [done|]. by apply Forall_singleton.
Qed.

End NewHabitRanking.

(** A new habit does not take the top spot.  When the confirmed habit is
    appended to a non-empty habit list and the store has no entry for its
    id, the strongest habit and the global longest streak are what they
    were. *)
Theorem new_habit_keeps_ranking (days : list Day) (habits entries : list Row)
    (data : Row) :
  habits ≠ [] →
  (∀ d, getEntry entries (get data "id") d = None) →
  bestHabit days (habits ++ [data]) entries = bestHabit days habits entries ∧
  longestStreakGlobal days (habits ++ [data]) entries =
    longestStreakGlobal days habits entries.
Proof.
  intros Hne Hfresh.
  assert (getHabitLongestStreak days entries data = 0) as Hzero.
  { apply longest_zero. apply Forall_forall. intros day _.
    unfold done, getHabitDayRatio. by rewrite Hfresh. }
  split.
  - apply bestHabit_snoc; [done|].
    destruct habits as [|x rest]; [done|]. exists x. split; [by left|].
    rewrite Hzero. lia.
  - unfold longestStreakGlobal.
    rewrite !longestStreakGlobal_fold, fmap_app.
    change (getHabitLongestStreak days entries <$> [data])
      with [getHabitLongestStreak days entries data].
    rewrite max_list_snoc, Hzero. lia.
Qed.

(** A third habit without entries, appended to the two sample habits,
    leaves the strongest habit as it was. *)
Lemma new_habit_keeps_ranking_witness :
  bestHabit Sample.two_weeks (SampleHabits.habits ++ [Sample.habit 3 "stretch"])
    SampleHabits.all_entries =
  bestHabit Sample.two_weeks SampleHabits.habits SampleHabits.all_entries.
Proof.
  refine (proj1 (new_habit_keeps_ranking Sample.two_weeks SampleHabits.habits
                   SampleHabits.all_entries (Sample.habit 3 "stretch") _ _)).
  - done.
  - intros d. by vm_compute.
Defined.

(** ** Changing the password *)

(** The change-password form.  An update is sent exactly when the new
    password has at least 6 code units and equals its confirmation, and
    what is sent is that password.  A shorter (or empty) password only
    sets the message "Password must be at least 6 characters."; a
    password of 6 or more that differs from its confirmation only sets
    "Passwords do not match.".  A confirmed update clears both fields; a
    rejected one keeps them, logs the error and shows its message, or
    "Failed to update password." when it has none. *)
Theorem password_change (s : Password.Form) :
  (6 ≤ length (Password.newPassword s) →
   Password.newPassword s = Password.confirmPassword s →
     Password.updates (Password.handleChangePassword s) =
       Password.updates s ++ [Password.newPassword s] ∧
     Password.passwordMsg (Password.handleChangePassword s) = Str "") ∧
  (length (Password.newPassword s) < 6 →
     Password.handleChangePassword s =
       Password.setPasswordMsg (Str "Password must be at least 6 characters.") s) ∧
  (6 ≤ length (Password.newPassword s) →
   Password.newPassword s ≠ Password.confirmPassword s →
     Password.handleChangePassword s =
       Password.setPasswordMsg (Str "Passwords do not match.") s) ∧
  (Password.updates (Password.handleChangePassword s) ≠ Password.updates s →
     6 ≤ length (Password.newPassword s) ∧
     Password.newPassword s = Password.confirmPassword s) ∧
  (∀ i sent, Password.updates s !! i = Some sent →
     (let s' := Password.update_reply i Password.Updated s in
      Password.newPassword s' = [] ∧ Password.confirmPassword s' = [] ∧
      Password.passwordMsg s' = Str "Password updated successfully ✅") ∧
     (∀ err,
        let s' := Password.update_reply i (Password.Rejected err) s in
        Password.newPassword s' = Password.newPassword s ∧
        Password.confirmPassword s' = Password.confirmPassword s ∧
        Password.console s' = Password.console s ++ [err] ∧
        Password.passwordMsg s' =
          (if truthy (get err "message") then get err "message"
           else Str "Failed to update password."))).
Proof.
  assert (∀ t : Password.Text, 6 ≤ length t → bool_decide (t = []) = false) as Hne.
  { intros t Ht. apply bool_decide_eq_false. intros ->. simpl in Ht. lia. }
  split; [|split; [|split; [|split]]].
  - intros Hlen Heq. unfold Password.handleChangePassword. simpl.
    rewrite (Hne _ Hlen), (proj2 (Nat.ltb_ge _ _) Hlen). simpl.
    by rewrite bool_decide_eq_true_2.
  - intros Hlen. unfold Password.handleChangePassword. simpl.
    rewrite (proj2 (Nat.ltb_lt _ _) Hlen), orb_true_r. by destruct s.
  - intros Hlen Hdiff. unfold Password.handleChangePassword. simpl.
    rewrite (Hne _ Hlen), (proj2 (Nat.ltb_ge _ _) Hlen). simpl.
    rewrite bool_decide_eq_false_2 by done. by destruct s.
  - unfold Password.handleChangePassword. simpl.
    destruct (bool_decide (Password.newPassword s = [])) eqn:Hempty; simpl; [done|].
    destruct (Nat.ltb_spec (length (Password.newPassword s)) 6); [done|].
    destruct (decide (Password.newPassword s = Password.confirmPassword s))
      as [Heq|Hdiff].
    + by intros _.
    + rewrite bool_decide_eq_false_2 by done. simpl. by intros Hsent.
  - intros i sent Hi. unfold Password.update_reply. rewrite Hi. by split.
Qed.

(** "secret1", typed twice, is sent. *)
Lemma password_change_witness :
  Password.updates (Password.handleChangePassword SampleForms.password_form) =
  [SampleForms.secret1].
Proof.
  refine (proj1 (proj1 (password_change SampleForms.password_form) _ eq_refl)).
  simpl. lia.
Defined.

(** ** The sign-in overlay *)

Section AuthFacts.

Import Auth.

Variable trim : string → string.
Variable mode : string.

Lemma elem_of_delete_other {A} (l : list A) i x y :
  l !! i = Some y → x ∈ l → x ≠ y → x ∈ delete i l.
Proof.
  intros Hi Hx Hne. rewrite delete_take_drop.
  rewrite <- (take_drop_middle l i y Hi) in Hx.
  rewrite !elem_of_app, elem_of_cons in Hx. rewrite elem_of_app.
  destruct Hx as [?|[?|?]]; [by left|done|by right].
Qed.

Lemma overlay_ok_step past s ev :
  overlay_ok past s → overlay_ok (past ++ [ev]) (step trim mode ev s).
Proof.
  intros (Hbusy & Hacc & Hgrant).
  assert (ev ∈ past ++ [ev]) as Hev.
  { apply elem_of_app. right. by left. }
  assert (AwaitUser ∈ waiting s ∨ granted s ≠ [] →
          ∃ i, AuthReply i Accepted ∈ past ++ [ev]) as Hacc'.
  { intros H. destruct (Hacc H) as [j Hj]. exists j. apply elem_of_app. by left. }
  assert (∀ u, u ∈ granted s → ∃ i, UserReply i (Some u) ∈ past ++ [ev])
    as Hgrant'.
  { intros u Hu. destruct (Hgrant u Hu) as [j Hj]. exists j.
    apply elem_of_app. by left. }
  assert (∀ (w : list Pending) i x, x ∈ delete i w → x ∈ w) as Hdel.
  { intros w i x Hx. eapply elem_of_sublist; [done|apply sublist_delete]. }
  assert (∀ p, p ≠ AwaitUser →
            AwaitUser ∈ waiting s ++ [p] ∨ granted s ≠ [] →
            ∃ i, AuthReply i Accepted ∈ past ++ [ev]) as Hsnoc.
  { intros p Hp [[H|H%list_elem_of_singleton]%elem_of_app|H]; [|done|];
      apply Hacc'; auto. }
  assert (∀ p, signing p = true → ∃ q, q ∈ waiting s ++ [p] ∧ signing q = true)
    as Hnew.
  { intros p Hp. exists p. split; [|done]. apply elem_of_app. right. by left. }
  destruct ev as [| |i r|i user|i r]; simpl.
  - unfold handleSubmit.
    destruct (String.eqb mode "signup");
      [destruct (negb (truthy (Str (trim (username s)))))|]; simpl.
    + by split.
    + split; [intros _; by apply Hnew|]. split; [by apply Hsnoc|done].
    + split; [intros _; by apply Hnew|]. split; [by apply Hsnoc|done].
  - unfold handleForgotPassword.
    destruct (negb (truthy (Str (email s)))); simpl; [by split|].
    split; [|split; [by apply Hsnoc|done]].
    intros Hs. destruct (Hbusy Hs) as (p & Hp & Hsign).
    exists p. split; [apply elem_of_app; by left|done].
  - assert (overlay_ok (past ++ [AuthReply i r]) s) as Hsame by by split.
    destruct (waiting s !! i) as [[e pw un|e pw| |e]|] eqn:Hi; try done;
      (destruct r as [|err]; simpl; (split; [|split; [|done]]);
       [ intros _; exists AwaitUser; split; [apply elem_of_app; right; by left|done]
       | intros _; by exists i
       | done
       | intros [H|H]; [apply Hdel in H|]; apply Hacc'; auto ]).
  - assert (overlay_ok (past ++ [UserReply i user]) s) as Hsame by by split.
    destruct (waiting s !! i) as [[e pw un|e pw| |e]|] eqn:Hi; try done.
    assert (∃ j, AuthReply j Accepted ∈ past ++ [UserReply i user]) as Haccepted.
    { apply Hacc'. left. by eapply list_elem_of_lookup_2. }
    destruct user as [u|]; simpl.
    + split; [done|]. split; [done|].
      intros u' [Hu'|Hu'%list_elem_of_singleton]%elem_of_app; [by apply Hgrant'|].
      subst. by exists i.
    + by split.
  - assert (overlay_ok (past ++ [ResetReply i r]) s) as Hsame by by split.
    destruct (waiting s !! i) as [[e pw un|e pw| |e]|] eqn:Hi; try done.
    assert (submitting s = true →
            ∃ p, p ∈ delete i (waiting s) ∧ signing p = true) as Hbusy'.
    { intros Hs. destruct (Hbusy Hs) as (p & Hp & Hsign). exists p.
      split; [|done]. eapply elem_of_delete_other; [done..|]. by intros ->. }
    assert (AwaitUser ∈ delete i (waiting s) ∨ granted s ≠ [] →
            ∃ j, AuthReply j Accepted ∈ past ++ [ResetReply i r]) as Hacc''.
    { intros [H|H]; [apply Hdel in H|]; apply Hacc'; auto. }
    by destruct r as [|err]; simpl.
Qed.

Lemma overlay_ok_run evs : ∀ past s,
  overlay_ok past s → overlay_ok (past ++ evs) (run trim mode evs s).
Proof.
  induction evs as [|ev evs IH]; intros past s Hok.
  - by rewrite app_nil_r.
  - rewrite (cons_middle ev past evs), (assoc_L (++)). simpl.
    apply IH. by apply overlay_ok_step.
Qed.

End AuthFacts.

(** The sign-in overlay, over any sequence of submits, "forgot password"
    clicks and replies, from a fresh overlay.  The form is in the
    submitting state only while a sign-up, a sign-in or the user lookup
    that follows one is in flight, so it is never left disabled with
    nothing pending.  [onAuthSuccess] is only ever called after a sign-up
    or sign-in was accepted, and only with a user that a lookup returned.
    A sign-up whose username is blank after trimming sends nothing and
    shows "Please choose a username.". *)
Theorem auth_overlay (trim : string → string) (mode : string)
    (email password username : string) (evs : list Auth.Event) :
  let s := Auth.run trim mode evs (Auth.fresh email password username) in
  (Auth.submitting s = true →
     ∃ p, p ∈ Auth.waiting s ∧ Auth.signing p = true) ∧
  (Auth.granted s ≠ [] → ∃ i, Auth.AuthReply i Auth.Accepted ∈ evs) ∧
  (∀ u, u ∈ Auth.granted s → ∃ i, Auth.UserReply i (Some u) ∈ evs) ∧
  (mode = "signup" → trim (Auth.username s) = "" →
     Auth.waiting (Auth.handleSubmit trim mode s) = Auth.waiting s ∧
     Auth.submitting (Auth.handleSubmit trim mode s) = false ∧
     Auth.errorMsg (Auth.handleSubmit trim mode s) =
       Str "Please choose a username.").
Proof.
  intros s.
  destruct (overlay_ok_run trim mode evs [] (Auth.fresh email password username))
    as (Hbusy & Hacc & Hgrant).
  { split; [done|]. split; [|by intros u Hu%elem_of_nil].
    intros [H%elem_of_nil|H]; done. }
  fold s in Hbusy, Hacc, Hgrant. simpl in Hacc, Hgrant.
  split; [done|]. split; [auto|]. split; [done|].
  intros -> Hblank. unfold Auth.handleSubmit. simpl. by rewrite Hblank.
Qed.

(** In the sample sign-in the user is granted access, and the sign-in was
    accepted before. *)
Lemma auth_overlay_witness :
  ∃ i, Auth.AuthReply i Auth.Accepted ∈ SampleForms.sign_in.
Proof.
  refine (proj1 (proj2 (auth_overlay SampleForms.trim "login" "a@b.c" "secret1" ""
                          SampleForms.sign_in)) _).
  by vm_compute.
Defined.

(** ** The calendar arithmetic behind the day axis *)

Section CalendarFacts.

Import JSDate.

#[local] Open Scope Z_scope.

Ltac split_ifs :=
  repeat match goal with
         | |- context [if ?b then _ else _] => destruct b eqn:?
         end.

Lemma civil_range z :
  1 ≤ (civil_from_days z).1.2 ≤ 12 ∧ 1 ≤ (civil_from_days z).2 ≤ 31.
Proof.
  unfold civil_from_days. cbv zeta. simpl.
  split_ifs; Z.div_mod_to_equations; lia.
Qed.

(** The day number of the date of a day number is that day number. *)
Lemma days_civil_round_trip z :
  days_from_civil (civil_from_days z).1.1 (civil_from_days z).1.2
    (civil_from_days z).2 = z.
Proof.
  unfold civil_from_days, days_from_civil. cbv zeta. simpl.
  split_ifs; Z.div_mod_to_equations; lia.
Qed.

Lemma days_from_civil_linear y m d :
  days_from_civil y m d = days_from_civil y m 1 + d - 1.
Proof. unfold days_from_civil. cbv zeta. lia. Qed.

(** 1 January is not after any day of its year. *)
Lemma january_first_le y m d :
  1 ≤ m ≤ 12 → 1 ≤ d → days_from_civil y 1 1 ≤ days_from_civil y m d.
Proof.
  intros Hm Hd. unfold days_from_civil. cbv zeta.
  change (1 <=? 2) with true. change (2 <? 1) with false. cbv iota.
  split_ifs; Z.div_mod_to_equations; lia.
Qed.

Lemma civil_january_first y :
  civil_from_days (days_from_civil y 1 1) = (y, 1, 1).
Proof.
  unfold days_from_civil. cbv zeta.
  change (1 <=? 2) with true. change (2 <? 1) with false. cbv iota.
  change ((153 * (1 + 9) + 2) / 5 + 1 - 1) with 306.
  set (y' := y - 1). set (era := y' / 400).
  assert (0 ≤ y' - era * 400 < 400) as Hyoe.
  { unfold era. Z.div_mod_to_equations. lia. }
  set (yoe := y' - era * 400) in *.
  unfold civil_from_days. cbv zeta.
  replace (era * 146097 + (yoe * 365 + yoe / 4 - yoe / 100 + 306) - 719468 + 719468)
    with (era * 146097 + (yoe * 365 + yoe / 4 - yoe / 100 + 306)) by lia.
  set (doe := yoe * 365 + yoe / 4 - yoe / 100 + 306).
  assert (0 ≤ doe < 146097) as Hdoe.
  { unfold doe. Z.div_mod_to_equations. lia. }
  assert ((era * 146097 + doe) / 146097 = era) as ->.
  { symmetry. apply Z.div_unique with doe; lia. }
  replace (era * 146097 + doe - era * 146097) with doe by lia.
  assert ((doe - doe / 1460 + doe / 36524 - doe / 146096) / 365 = yoe) as ->.
  { unfold doe. Z.div_mod_to_equations. lia. }
  unfold doe.
  replace (yoe * 365 + yoe / 4 - yoe / 100 + 306 - (365 * yoe + yoe / 4 - yoe / 100))
    with 306 by lia.
  change ((5 * 306 + 2) / 153) with 10. simpl.
  f_equal. f_equal. unfold yoe, y'. lia.
Qed.

Lemma EpochDay_day n r : 0 ≤ r < msPerDay → EpochDay (n * msPerDay + r) = n.
Proof.
  intros Hr. unfold EpochDay. symmetry. apply Z.div_unique with r; lia.
Qed.

Lemma EpochDay_midnight n : EpochDay (n * msPerDay) = n.
Proof. rewrite <- (Z.add_0_r (n * msPerDay)). by apply EpochDay_day. Qed.

Lemma time_split t : t = EpochDay t * msPerDay + TimeWithinDay t.
Proof. unfold EpochDay, TimeWithinDay, msPerDay. Z.div_mod_to_equations. lia. Qed.

Lemma TimeWithinDay_range t : 0 ≤ TimeWithinDay t < msPerDay.
Proof. unfold TimeWithinDay, msPerDay. Z.div_mod_to_equations. lia. Qed.

Variable host : Host.

(** [d.setDate(d.getDate() + 1)] moves [d] forward by exactly one day. *)
Lemma setDate_next t : setDate host t (getDate host t + 1) = t + msPerDay.
Proof.
  unfold setDate, getDate, UTC, DateFromTime, YearFromTime, MonthFromTime,
    MakeDate, MakeDay.
  set (lt := LocalTime host t). set (n := EpochDay lt).
  pose proof (civil_range n) as [Hm Hd].
  pose proof (days_civil_round_trip n) as Hround.
  destruct (civil_from_days n) as [[y m] d]. simpl in *.
  replace ((m - 1) / 12) with 0 by (Z.div_mod_to_equations; lia).
  replace ((m - 1) mod 12 + 1) with m by (Z.div_mod_to_equations; lia).
  rewrite Z.add_0_r.
  rewrite (days_from_civil_linear y m d) in Hround.
  pose proof (time_split lt) as Hsplit. fold n in Hsplit.
  unfold lt, LocalTime in *. lia.
Qed.

(** [new Date(year, 0, 1)] is the local midnight that starts 1 January. *)
Lemma Date_of_fields_january year :
  ¬ (0 ≤ year ≤ 99) →
  Date_of_fields host year 0 1 = local_midnight host (days_from_civil year 1 1).
Proof.
  intros Hyear. unfold Date_of_fields, local_midnight, UTC, MakeDate, MakeDay.
  assert ((0 <=? year) && (year <=? 99) = false) as ->.
  { apply andb_false_iff. lia. }
  change (0 / 12) with 0. change (0 mod 12 + 1) with 1.
  replace (year + 0) with year by lia. lia.
Qed.

Lemma local_midnight_next n :
  setDate host (local_midnight host n) (getDate host (local_midnight host n) + 1)
  = local_midnight host (n + 1).
Proof. rewrite setDate_next. unfold local_midnight. lia. Qed.

Lemma local_midnight_le n now :
  local_midnight host n ≤ now ↔ n ≤ EpochDay (LocalTime host now).
Proof.
  unfold local_midnight, LocalTime, EpochDay, msPerDay.
  Z.div_mod_to_equations. lia.
Qed.

End CalendarFacts.

Section AxisFacts.

Import JSDate.

#[local] Open Scope Z_scope.

Variable host : Host.

(** The loop, started at the local midnight of day [n], pushes one record
    per day up to the day [N] of [today] and stops, provided the budget
    exceeds the number of days. *)
Lemma axis_loop today N (count : nat) : ∀ n (budget : nat) acc,
  N = EpochDay (LocalTime host today) →
  Z.of_nat count = N - n + 1 → (count < budget)%nat →
  getDaysFromStartOfYear_loop host today budget (local_midnight host n) acc =
  Some (acc ++ ((λ m, day_of_date host (local_midnight host m)) <$>
                seqZ n (N - n + 1))).
Proof.
  induction count as [|count IH]; intros n budget acc HN Hcount Hbudget.
  - destruct budget as [|budget]; [lia|]. simpl.
    assert ((local_midnight host n <=? today) = false) as ->.
    { apply Z.leb_gt. pose proof (local_midnight_le host n today). lia. }
    replace (N - n + 1) with 0 by lia. by rewrite app_nil_r.
  - destruct budget as [|budget]; [lia|]. simpl.
    assert ((local_midnight host n <=? today) = true) as ->.
    { apply Z.leb_le. apply local_midnight_le. lia. }
    rewrite local_midnight_next.
    rewrite (IH (n + 1) budget) by (try done; lia).
    rewrite (seqZ_cons n (N - n + 1)) by lia. rewrite fmap_cons.
    rewrite <- (assoc_L (++)). simpl.
    replace (Z.succ n) with (n + 1) by lia.
    replace (Z.pred (N - n + 1)) with (N - (n + 1) + 1) by lia. done.
Qed.

(** The year's first day is not after today. *)
Lemma january_first_le_today now :
  days_from_civil (getFullYear host now) 1 1 ≤ EpochDay (LocalTime host now).
Proof.
  unfold getFullYear, YearFromTime. set (N := EpochDay (LocalTime host now)).
  pose proof (civil_range N) as [Hm Hd].
  pose proof (days_civil_round_trip N) as Hround.
  rewrite <- Hround at 2. apply january_first_le; lia.
Qed.

Lemma axis_days now (budget : nat) :
  let J := days_from_civil (getFullYear host now) 1 1 in
  let N := EpochDay (LocalTime host now) in
  ¬ (0 ≤ getFullYear host now ≤ 99) → N - J + 1 < Z.of_nat budget →
  getDaysFromStartOfYear host now budget =
  Some ((λ m, day_of_date host (local_midnight host m)) <$> seqZ J (N - J + 1)).
Proof.
  intros J N Hyear Hbudget. unfold getDaysFromStartOfYear.
  rewrite Date_of_fields_january by done. fold J.
  pose proof (january_first_le_today now) as Hle. fold J N in Hle.
  rewrite (axis_loop now N (Z.to_nat (N - J + 1)) J budget []); [done|done|lia|lia].
Qed.

End AxisFacts.

Section KeyFacts.

Import JSDate.

Lemma append_cons x (a b : string) : String x a +:+ b = String x (a +:+ b).
Proof. done. Qed.

Lemma substring_prefix (a b b' : string) n :
  (n ≤ String.length a)%nat →
  String.substring 0 n (a +:+ b) = String.substring 0 n (a +:+ b').
Proof.
  revert n. induction a as [|c a IH]; intros n Hn.
  - simpl in Hn. assert (n = 0)%nat as -> by lia. by destruct b, b'.
  - rewrite !append_cons. destruct n as [|n]; [done|]. simpl in *.
    f_equal. apply IH. lia.
Qed.

Lemma append_assoc (a b c : string) : (a +:+ b) +:+ c = a +:+ (b +:+ c).
Proof.
  induction a as [|x a IH]; [done|]. rewrite !append_cons. by rewrite IH.
Qed.

Lemma length_append (a b : string) :
  String.length (a +:+ b) = (String.length a + String.length b)%nat.
Proof.
  induction a as [|x a IH]; [done|]. rewrite append_cons. simpl. by rewrite IH.
Qed.

Lemma length_pad width n : String.length (pad width n) = width.
Proof.
  revert n. induction width as [|w IH]; intros n; simpl; [done|].
  rewrite length_append, IH. simpl. lia.
Qed.

(** [formatDate] only depends on the UTC day of the instant. *)
Lemma formatDate_day t : formatDate t = iso_key (EpochDay t).
Proof.
  unfold iso_key, formatDate, toISOString, YearFromTime, MonthFromTime,
    DateFromTime. rewrite EpochDay_midnight. cbv zeta.
  set (year := if _ : bool then _ else _).
  set (month := pad 2 _). set (day := pad 2 _).
  rewrite <- !(append_assoc year), <- !(append_assoc (year +:+ "-")).
  rewrite <- !(append_assoc ((year +:+ "-") +:+ month)).
  rewrite <- !(append_assoc (((year +:+ "-") +:+ month) +:+ "-")).
  apply substring_prefix.
  rewrite !length_append. unfold month, day. rewrite !length_pad.
  assert (4 ≤ String.length year)%nat; [|simpl; lia].
  unfold year. case_match; [by rewrite length_pad|].
  rewrite length_append, length_pad. lia.
Qed.

End KeyFacts.

(** The day axis, in a zone at a fixed offset from UTC and a year outside
    0..99.  Given a budget larger than the number of days, the loop ends
    and returns one record per local calendar day from 1 January of the
    local year of [now] to the local day of [now], in order, so the axis
    is never empty.  The record of day [J + k] carries that day's month
    and day of month and a weekday row between 0 and 6 with a defined
    label; its [date] key, however, is the key of the UTC day on which
    that local midnight falls: the same day in a zone at or west of UTC
    (by less than a day), and the day before in a zone east of UTC. *)
Theorem day_axis (host : JSDate.Host) (now : Z) (budget : nat) :
  let Y := JSDate.getFullYear host now in
  let J := JSDate.days_from_civil Y 1 1 in
  let N := JSDate.EpochDay (JSDate.LocalTime host now) in
  let shift := (- JSDate.LocalTZA host / JSDate.msPerDay)%Z in
  ¬ (0 ≤ Y ≤ 99)%Z → (N - J + 1 < Z.of_nat budget)%Z →
  ∃ days,
    getDaysFromStartOfYear host now budget = Some days ∧
    Z.of_nat (length days) = (N - J + 1)%Z ∧ 1 ≤ length days ∧
    JSDate.civil_from_days J = (Y, 1, 1)%Z ∧
    (∀ (k : nat) day, days !! k = Some day →
       (JSDate.civil_from_days (J + Z.of_nat k)).1.2 = (monthIndex day + 1)%Z ∧
       (JSDate.civil_from_days (J + Z.of_nat k)).2 = dayOfMonth day ∧
       date day = iso_key (J + Z.of_nat k + shift) ∧
       (0 ≤ weekdayRow day ≤ 6)%Z ∧ is_Some (weekdayLabel day)) ∧
    ((- JSDate.msPerDay < JSDate.LocalTZA host ≤ 0)%Z → shift = 0%Z) ∧
    ((0 < JSDate.LocalTZA host ≤ JSDate.msPerDay)%Z → shift = (-1)%Z).
Proof.
  intros Y J N shift Hyear Hbudget.
  pose proof (january_first_le_today host now) as Hle. fold Y J N in Hle.
  exists ((λ m, day_of_date host (local_midnight host m)) <$> seqZ J (N - J + 1)).
  split; [by apply axis_days|].
  rewrite length_fmap, length_seqZ.
  split; [lia|]. split; [lia|]. split; [apply civil_january_first|].
  split; [|split].
  - intros k day Hk. apply list_lookup_fmap_Some in Hk as (m & -> & Hm).
    apply lookup_seqZ in Hm as [-> Hk].
    unfold day_of_date. cbn [date monthIndex dayOfMonth weekdayRow weekdayLabel].
    unfold JSDate.getMonth, JSDate.getDate, JSDate.MonthFromTime,
      JSDate.DateFromTime, JSDate.LocalTime, local_midnight.
    replace ((J + Z.of_nat k) * JSDate.msPerDay - JSDate.LocalTZA host +
             JSDate.LocalTZA host)%Z
      with ((J + Z.of_nat k) * JSDate.msPerDay)%Z by lia.
    rewrite EpochDay_midnight.
    split; [lia|]. split; [done|]. split; [|split].
    + rewrite formatDate_day. f_equal. unfold JSDate.EpochDay, shift.
      replace ((J + Z.of_nat k) * JSDate.msPerDay - JSDate.LocalTZA host)%Z
        with (- JSDate.LocalTZA host + (J + Z.of_nat k) * JSDate.msPerDay)%Z
        by lia.
      rewrite Z.div_add by done. lia.
    + pose proof (Z.mod_pos_bound
                    (JSDate.getDay host
                       ((J + Z.of_nat k) * JSDate.msPerDay - JSDate.LocalTZA host)
                     + 6) 7 ltac:(lia)). lia.
    + apply lookup_lt_is_Some. simpl.
      pose proof (Z.mod_pos_bound
                    (JSDate.getDay host
                       ((J + Z.of_nat k) * JSDate.msPerDay - JSDate.LocalTZA host)
                     + 6) 7 ltac:(lia)). lia.
  - intros Hwest. unfold shift, JSDate.msPerDay in *.
    Z.div_mod_to_equations. lia.
  - intros Heast. unfold shift, JSDate.msPerDay in *.
    Z.div_mod_to_equations. lia.
Qed.

(** The axis of the Indian browser at noon of 10 March 2024 exists, and
    its zone shifts every key by one day. *)
Lemma day_axis_witness :
  ∃ days,
    getDaysFromStartOfYear SampleHosts.kolkata SampleHosts.noon_10_march_2024 400
      = Some days ∧ 1 ≤ length days.
Proof.
  destruct (day_axis SampleHosts.kolkata SampleHosts.noon_10_march_2024 400)
    as (days & Hdays & _ & Hlen & _).
  - vm_compute. intros [_ Hle]. by apply Hle.
  - vm_compute. reflexivity.
  - exists days. split; assumption.
Defined.

(** ** The "Mark done" button *)

(** The button of the selected day asks for the negation of what the cell
    shows, for the selected date.  When each write is confirmed by a row
    that contains what was sent, one press flips the cell and a second
    press brings it back to the value it had. *)
Theorem toggle_twice (u : Row) (s : Dashboard.State) (habit : Row)
    (data1 data2 : Row) :
  let id := get habit "id" in
  let d := Dashboard.selectedDate s in
  let v := Dashboard.cell_value s id d in
  let press s := Dashboard.step (Some u) (Dashboard.ClickToggle habit) s in
  let confirm data s :=
    Dashboard.step (Some u)
      (Dashboard.UpsertReply (length (Dashboard.inflight s) - 1)
         (Dashboard.Returned data)) s in
  Dashboard.upsert_request u id d (negb v) ⊆ data1 →
  Dashboard.upsert_request u id d v ⊆ data2 →
  Dashboard.inflight (press s) =
    Dashboard.inflight s ++
      [Dashboard.AwaitUpsert id d (Dashboard.upsert_request u id d (negb v))] ∧
  Dashboard.cell_value (confirm data1 (press s)) id d = negb v ∧
  Dashboard.cell_value (confirm data2 (press (confirm data1 (press s)))) id d = v.
Proof.
  intros id d v press confirm Hsub1 Hsub2.
  assert (∀ s0 data value,
            Dashboard.selectedDate s0 = d →
            Dashboard.cell_value s0 id d = negb value →
            Dashboard.upsert_request u id d value ⊆ data →
            Dashboard.selectedDate (confirm data (press s0)) = d ∧
            Dashboard.cell_value (confirm data (press s0)) id d = value) as Hflip.
  { intros s0 data value Hsel Hcell Hsub.
    assert (Dashboard.inflight (press s0) =
            Dashboard.inflight s0 ++
              [Dashboard.AwaitUpsert id d (Dashboard.upsert_request u id d value)])
      as Hin.
    { unfold press. simpl. unfold Dashboard.onClickToggle. simpl.
      fold id. rewrite Hsel, Hcell, negb_involutive. done. }
    assert (Dashboard.inflight (press s0) !!
              (length (Dashboard.inflight (press s0)) - 1) =
            Some (Dashboard.AwaitUpsert id d
                    (Dashboard.upsert_request u id d value))) as Hlast.
    { rewrite Hin, length_app. simpl.
      replace (length (Dashboard.inflight s0) + 1 - 1)
        with (length (Dashboard.inflight s0)) by lia.
      by apply list_lookup_middle. }
    destruct (upsert_request_lookup u id d value) as (Hh & Hdt & Hval).
    assert (Dashboard.selectedDate (press s0) = d) as Hsel'.
    { unfold press. simpl. unfold Dashboard.onClickToggle. done. }
    clearbody press. split.
    - unfold confirm. cbn [Dashboard.step]. rewrite Hlast. simpl. exact Hsel'.
    - unfold confirm. eapply upsert_reply_cell; [exact Hlast| | |].
      + unfold get. by rewrite (lookup_weaken _ _ _ _ Hh Hsub).
      + unfold get. by rewrite (lookup_weaken _ _ _ _ Hdt Hsub).
      + by apply (lookup_weaken _ _ _ _ Hval Hsub). }
  split.
  { unfold press. simpl. unfold Dashboard.onClickToggle. done. }
  destruct (Hflip s data1 (negb v)) as [Hsel1 Hcell1];
    [done|by rewrite negb_involutive|done|].
  split; [done|].
  by destruct (Hflip (confirm data1 (press s)) data2 v) as [_ Hcell2].
Qed.

(** On the loaded sample session, whose selected day (14 January) is done
    for habit 1: a confirmed press clears it. *)
Lemma toggle_twice_witness :
  Dashboard.cell_value
    (Dashboard.step (Some Sample.user)
       (Dashboard.UpsertReply 0
          (Dashboard.Returned (Sample.entry 1 "2024-01-14" false)))
       (Dashboard.step (Some Sample.user)
          (Dashboard.ClickToggle Sample.run_habit) SampleSession.loaded))
    (Num 1) "2024-01-14" = false.
Proof.
  refine (proj1 (proj2 (toggle_twice Sample.user SampleSession.loaded
                          Sample.run_habit
                          (Sample.entry 1 "2024-01-14" false)
                          (Sample.entry 1 "2024-01-14" true) _ _))).
  - apply map_subseteq_spec. intros k x Hk.
    destruct (decide (k = "value")) as [->|];
    [|destruct (decide (k = "date")) as [->|];
      [|destruct (decide (k = "habit_id")) as [->|];
        [|destruct (decide (k = "user_id")) as [->|]]]];
    [vm_compute in Hk |- *; done..|].
    unfold Dashboard.upsert_request in Hk. by simplify_map_eq.
  - apply map_subseteq_spec. intros k x Hk.
    destruct (decide (k = "value")) as [->|];
    [|destruct (decide (k = "date")) as [->|];
      [|destruct (decide (k = "habit_id")) as [->|];
        [|destruct (decide (k = "user_id")) as [->|]]]];
    [vm_compute in Hk |- *; done..|].
    unfold Dashboard.upsert_request in Hk. by simplify_map_eq.
Defined.
